(** * E-commerce back end: cart, direct checkout and Stripe settlement

    A shallow embedding of [routes/cart.js], [routes/order.js],
    [routes/payment.js] and [utils/cartUtils.js].  The relational store is
    an explicit record of tables; every Prisma call is a state transformer
    that may throw, and [prisma.$transaction] is the combinator that puts
    the rows back when its body throws.

    Money held in a [DECIMAL(10,2)] column is a count of cents ([Z]); a
    JavaScript [number] is a binary64 value ([float]). *)

From Stdlib Require Import ZArith List String Bool Lia PrimFloat Uint63.
From Stdlib Require Import FloatOps SpecFloat FloatAxioms.
From stdpp Require Import gmap strings list.

Local Open Scope Z_scope.

(** ** Exceptions and results shared by the route handlers *)

Inductive Exn : Type :=
| TypeError (msg : string)          (* property access on null, call of a non-function *)
| PrismaError (code : string)       (* P2002 unique, P2003 foreign key, P2020 range, P2025 not found *)
| AppError (message : string).      (* [throw new Error(message)] *)

Inductive Result (A : Type) : Type :=
| Ok (a : A)
| Throw (e : Exn).
Arguments Ok {A} a.
Arguments Throw {A} e.

Definition isOk {A} (r : Result A) : bool :=
  match r with Ok _ => true | Throw _ => false end.

(** [hay.includes(needle)] *)
Fixpoint includes (needle hay : string) : bool :=
  String.prefix needle hay ||
  match hay with
  | EmptyString => false
  | String _ rest => includes needle rest
  end.

(** [error.message] *)
Definition message (e : Exn) : string :=
  match e with
  | TypeError m => m
  | PrismaError c => c
  | AppError m => m
  end.

(** The value range of a [DECIMAL(10,2)] column, in cents. *)
Definition fitsDecimal10_2 (cents : Z) : bool :=
  (-10000000000 <? cents) && (cents <? 10000000000).

(** The value range of an [INTEGER] column. *)
Definition fitsInt32 (n : Z) : bool :=
  (-2147483648 <=? n) && (n <=? 2147483647).

(** ** Statements against a store: state passing with exceptions *)

Section StateExn.

Context {S : Type}.

Definition M (A : Type) : Type := S -> Result A * S.

Definition ret {A} (a : A) : M A := fun db => (Ok a, db).
Definition throw {A} (e : Exn) : M A := fun db => (Throw e, db).
Definition bind {A B} (m : M A) (k : A -> M B) : M B :=
  fun db => match m db with
            | (Ok a, db') => k a db'
            | (Throw e, db') => (Throw e, db')
            end.

(** [await Promise.all(items.map(f))]: the statements are issued in list
    order on the one connection of the transaction; the first rejection
    rejects the whole. *)
Fixpoint forEach {A} (f : A -> M unit) (l : list A) : M unit :=
  match l with
  | [] => ret tt
  | x :: rest => bind (f x) (fun _ => forEach f rest)
  end.

(** [prisma.$transaction(async tx => body)]: commit when the body
    returns; when it throws, [restore before after] is the store with the
    rows of [before]. *)
Definition transaction (restore : S -> S -> S) {A} (body : M A) : M A :=
  fun db => match body db with
            | (Ok a, db') => (Ok a, db')
            | (Throw e, db') => (Throw e, restore db db')
            end.

End StateExn.

Arguments M S A : clear implicits.

Notation "x <- m ;; k" := (bind m (fun x => k))
  (at level 100, m at next level, right associativity).
Notation "m ;;; k" := (bind m (fun _ => k))
  (at level 100, right associativity).

(* ================================================================== *)
(** ** routes/payment.js *)
(* ================================================================== *)

Module Payment.

(** *** Tables touched by the webhook (names as in the migrations) *)

Record User := { email : string }.

Record Product := { name : string }.

Record ProductVariant := {
  pv_productId : Z;
  price : Z;
  sku : string;
  stock : Z;
  title : string
}.

Record ShoppingCart := { sc_userId : Z }.

Record CartItem := {
  ci_id : Z;
  cartId : Z;
  productId : Z;
  variantId : Z;
  quantity : Z;
  itemPrice : Z
}.

Record OrderLineItem := {
  li_productId : Z;
  li_variantId : Z;
  li_quantity : Z;
  li_price : Z;
  li_total : Z;
  li_title : string;
  li_variantTitle : string;
  li_sku : string
}.

(** [ORD-${Date.now()}-${userId}]: the two numbers determine the string. *)
Record OrderNumber := { on_time : Z; on_user : Z }.

Record Order := {
  o_id : Z;
  orderNumber : OrderNumber;
  o_userId : Z;
  o_email : string;
  subtotal : Z;
  taxAmount : Z;
  shippingAmount : Z;
  totalAmount : Z;
  status : string;
  financialStatus : string;
  fulfillmentStatus : string;
  lineItems : list OrderLineItem
}.

Record OrderTransaction := {
  ot_id : Z;
  orderId : Z;
  stripeId : string;
  stripeObjectType : string;
  ot_status : string;
  paymentMethod : string;
  amount : Z;
  feeAmount : Z
}.

(** The store.  The two [SERIAL] counters are not rows: PostgreSQL does
    not put a sequence back when a transaction is rolled back. *)
Record DB := {
  users : gmap Z User;
  products : gmap Z Product;
  productVariants : gmap Z ProductVariant;
  shoppingCarts : gmap Z ShoppingCart;
  cartItems : list CartItem;
  orders : list Order;
  orderTransactions : list OrderTransaction;
  orderSeq : Z;
  transactionSeq : Z
}.

Definition set_productVariants (f : gmap Z ProductVariant -> gmap Z ProductVariant) (db : DB) : DB :=
  {| users := users db; products := products db;
     productVariants := f (productVariants db);
     shoppingCarts := shoppingCarts db; cartItems := cartItems db;
     orders := orders db; orderTransactions := orderTransactions db;
     orderSeq := orderSeq db; transactionSeq := transactionSeq db |}.

Definition set_cartItems (f : list CartItem -> list CartItem) (db : DB) : DB :=
  {| users := users db; products := products db;
     productVariants := productVariants db;
     shoppingCarts := shoppingCarts db; cartItems := f (cartItems db);
     orders := orders db; orderTransactions := orderTransactions db;
     orderSeq := orderSeq db; transactionSeq := transactionSeq db |}.

Definition set_orders (f : list Order -> list Order) (db : DB) : DB :=
  {| users := users db; products := products db;
     productVariants := productVariants db;
     shoppingCarts := shoppingCarts db; cartItems := cartItems db;
     orders := f (orders db); orderTransactions := orderTransactions db;
     orderSeq := orderSeq db; transactionSeq := transactionSeq db |}.

Definition set_orderTransactions (f : list OrderTransaction -> list OrderTransaction) (db : DB) : DB :=
  {| users := users db; products := products db;
     productVariants := productVariants db;
     shoppingCarts := shoppingCarts db; cartItems := cartItems db;
     orders := orders db; orderTransactions := f (orderTransactions db);
     orderSeq := orderSeq db; transactionSeq := transactionSeq db |}.

Definition set_orderSeq (n : Z) (db : DB) : DB :=
  {| users := users db; products := products db;
     productVariants := productVariants db;
     shoppingCarts := shoppingCarts db; cartItems := cartItems db;
     orders := orders db; orderTransactions := orderTransactions db;
     orderSeq := n; transactionSeq := transactionSeq db |}.

Definition set_transactionSeq (n : Z) (db : DB) : DB :=
  {| users := users db; products := products db;
     productVariants := productVariants db;
     shoppingCarts := shoppingCarts db; cartItems := cartItems db;
     orders := orders db; orderTransactions := orderTransactions db;
     orderSeq := orderSeq db; transactionSeq := n |}.

(** [prisma.$transaction] on this store: every row is put back, the
    sequences keep the values they reached. *)
Definition rollback (before after : DB) : DB :=
  set_transactionSeq (transactionSeq after) (set_orderSeq (orderSeq after) before).

(** *** The Prisma calls of the handler *)

Definition decStock (q : Z) (v : ProductVariant) : ProductVariant :=
  {| pv_productId := pv_productId v; price := price v; sku := sku v;
     stock := stock v - q; title := title v |}.

(** [tx.productVariant.update({ where: { id }, data: { stock: { decrement } } })] *)
Definition productVariant_decrement (id q : Z) : M DB unit :=
  fun db => match productVariants db !! id with
            | None => (Throw (PrismaError "P2025"), db)
            | Some _ => (Ok tt, set_productVariants (alter (decStock q) id) db)
            end.

Definition lineItemStorable (db : DB) (li : OrderLineItem) : option Exn :=
  if negb (bool_decide (is_Some (productVariants db !! li_variantId li))) then Some (PrismaError "P2003")
  else if negb (bool_decide (is_Some (products db !! li_productId li))) then Some (PrismaError "P2003")
  else if negb (fitsInt32 (li_quantity li)) then Some (PrismaError "P2020")
  else if negb (fitsDecimal10_2 (li_price li) && fitsDecimal10_2 (li_total li)) then Some (PrismaError "P2020")
  else None.

Fixpoint firstViolation (db : DB) (lis : list OrderLineItem) : option Exn :=
  match lis with
  | [] => None
  | li :: rest =>
      match lineItemStorable db li with
      | Some e => Some e
      | None => firstViolation db rest
      end
  end.

Definition orderNumber_eqb (a b : OrderNumber) : bool :=
  (on_time a =? on_time b) && (on_user a =? on_user b).

(** [tx.order.create({ data: { ..., lineItems: { create: lineItemsData } } })]:
    a fresh id from the sequence, then the constraints of the migration
    ([orders_user_id_fkey], [orders_order_number_key], the line items'
    foreign keys and column ranges). *)
Definition order_create (num : OrderNumber) (uid : Z) (mail : string)
    (total : Z) (lis : list OrderLineItem) : M DB Order :=
  fun db =>
    let id := orderSeq db + 1 in
    let db1 := set_orderSeq id db in
    let row := {| o_id := id; orderNumber := num; o_userId := uid; o_email := mail;
                  subtotal := total; taxAmount := 0; shippingAmount := 0;
                  totalAmount := total;
                  status := "processing"; financialStatus := "paid";
                  fulfillmentStatus := "unfulfilled"; lineItems := lis |} in
    if negb (bool_decide (is_Some (users db !! uid))) then (Throw (PrismaError "P2003"), db1)
    else if existsb (fun o => orderNumber_eqb (orderNumber o) num) (orders db)
         then (Throw (PrismaError "P2002"), db1)
    else if negb (fitsDecimal10_2 total) then (Throw (PrismaError "P2020"), db1)
    else match firstViolation db lis with
         | Some e => (Throw e, db1)
         | None => (Ok row, set_orders (fun os => os ++ [row]) db1)
         end.

(** [tx.orderTransaction.create]: [order_transactions_stripe_id_key] is the
    unique index on [stripe_id]. *)
Definition orderTransaction_create (oid : Z) (sid method : string) (amt : Z) : M DB OrderTransaction :=
  fun db =>
    let id := transactionSeq db + 1 in
    let db1 := set_transactionSeq id db in
    let row := {| ot_id := id; orderId := oid; stripeId := sid;
                  stripeObjectType := "checkout.session"; ot_status := "succeeded";
                  paymentMethod := method; amount := amt; feeAmount := 0 |} in
    if negb (existsb (fun o => o_id o =? oid) (orders db)) then (Throw (PrismaError "P2003"), db1)
    else if existsb (fun t => String.eqb (stripeId t) sid) (orderTransactions db)
         then (Throw (PrismaError "P2002"), db1)
    else if negb (fitsDecimal10_2 amt) then (Throw (PrismaError "P2020"), db1)
    else (Ok row, set_orderTransactions (fun ts => ts ++ [row]) db1).

(** [tx.shoppingCart.update({ where: { id }, data: { items: { deleteMany: {} } } })] *)
Definition shoppingCart_clearItems (cid : Z) : M DB unit :=
  fun db => match shoppingCarts db !! cid with
            | None => (Throw (PrismaError "P2025"), db)
            | Some _ => (Ok tt, set_cartItems (filter (fun it => cartId it ≠ cid)) db)
            end.


(** *** The checkout session echoed back by the gateway *)

(** [metadata.userId] and [metadata.cartId] were written by the checkout
    route as [id.toString()], so [parseInt] gives the number back. *)
Record Session := {
  session_id : string;
  metadata_userId : Z;
  metadata_cartId : Z;
  payment_intent : string;
  payment_method_types : list string
}.

(** A cart item with its [include]d relations. *)
Record ItemView := {
  iv_item : CartItem;
  iv_variant : option ProductVariant;
  iv_product : option Product
}.

(** [prisma.shoppingCart.findUnique({ where: { id }, include: { items: ... } })] *)
Definition shoppingCart_findUnique (cid : Z) (db : DB) : option (list ItemView) :=
  match shoppingCarts db !! cid with
  | None => None
  | Some _ =>
      Some (map (fun it => {| iv_item := it;
                              iv_variant := productVariants db !! variantId it;
                              iv_product := products db !! productId it |})
                (filter (fun it => cartId it = cid) (cartItems db)))
  end.

(** [let totalAmount = 0] is a JavaScript number until the first pass of
    the loop replaces it by a [Decimal]. *)
Inductive JsAmount : Type :=
| JsNumber (n : Z)
| JsDecimal (cents : Z).

(** [new Decimal(x)] *)
Definition newDecimal (x : JsAmount) : Z :=
  match x with JsNumber n => 100 * n | JsDecimal c => c end.

(** [x.toNumber()]: a method of [Decimal] only.  On a [Decimal] the
    number is kept as the cents it stands for: every amount that reaches a
    row passes the [DECIMAL(10,2)] range check of its column, and below
    10^10 cents the round trip decimal, binary64, decimal is exact, as are
    [Decimal.mul] and [Decimal.add] at their 20 significant digits. *)
Definition toNumber (x : JsAmount) : Result Z :=
  match x with
  | JsDecimal c => Ok c
  | JsNumber _ => Throw (TypeError "totalAmount.toNumber is not a function")
  end.

(** The [for (const item of cart.items)] loop; [Ok None] is its early
    [return] on the final stock check. *)
Fixpoint collectLineItems (items : list ItemView) (totalAmount : JsAmount)
    (lineItemsData : list OrderLineItem) : Result (option (JsAmount * list OrderLineItem)) :=
  match items with
  | [] => Ok (Some (totalAmount, lineItemsData))
  | item :: rest =>
      match iv_variant item with
      | None => Throw (TypeError "Cannot read properties of null (reading 'price')")
      | Some variant =>
          let variantPrice := price variant in
          let itemTotal := variantPrice * quantity (iv_item item) in
          let totalAmount' := JsDecimal (newDecimal totalAmount + itemTotal) in
          if stock variant <? quantity (iv_item item) then Ok None
          else
            match iv_product item with
            | None => Throw (TypeError "Cannot read properties of null (reading 'name')")
            | Some product =>
                collectLineItems rest totalAmount'
                  (lineItemsData ++
                   [{| li_productId := productId (iv_item item);
                       li_variantId := variantId (iv_item item);
                       li_quantity := quantity (iv_item item);
                       li_price := variantPrice;
                       li_total := itemTotal;
                       li_title := name product;
                       li_variantTitle := title variant;
                       li_sku := sku variant |}])
            end
      end
  end.

(** What the handler holds in local variables when it opens the
    transaction. *)
Record Plan := {
  pl_session : Session;
  pl_items : list CartItem;
  pl_user : option User;
  pl_orderNumber : OrderNumber;
  pl_lineItemsData : list OrderLineItem;
  pl_orderTotal : Z
}.

(** Steps 1 and 2 of [handleCheckoutSessionCompleted]: the two reads, the
    loop and [orderTotal].  [now] is [Date.now()]. *)
Definition readPhase (session : Session) (now : Z) (db : DB) : Result (option Plan) :=
  match shoppingCart_findUnique (metadata_cartId session) db with
  | None => Ok None
  | Some items =>
      let user := users db !! metadata_userId session in
      let num := {| on_time := now; on_user := metadata_userId session |} in
      match collectLineItems items (JsNumber 0) [] with
      | Throw e => Throw e
      | Ok None => Ok None
      | Ok (Some (totalAmount, lineItemsData)) =>
          match toNumber totalAmount with
          | Throw e => Throw e
          | Ok orderTotal =>
              Ok (Some {| pl_session := session;
                          pl_items := map iv_item items;
                          pl_user := user;
                          pl_orderNumber := num;
                          pl_lineItemsData := lineItemsData;
                          pl_orderTotal := orderTotal |})
          end
      end
  end.

(** [session.payment_method_types?.[0] || 'card'] *)
Definition firstPaymentMethod (l : list string) : string :=
  match l with
  | m :: _ => if String.eqb m "" then "card" else m
  | [] => "card"
  end.

(** Step 3: the callback handed to [prisma.$transaction]. *)
Definition writePhase (p : Plan) : M DB Order :=
  forEach (fun item => productVariant_decrement (variantId item) (quantity item)) (pl_items p) ;;;
  user <- match pl_user p with
          | Some u => ret u
          | None => throw (TypeError "Cannot read properties of null (reading 'email')")
          end ;;
  newOrder <- order_create (pl_orderNumber p) (metadata_userId (pl_session p)) (email user)
                           (pl_orderTotal p) (pl_lineItemsData p) ;;
  _ <- orderTransaction_create (o_id newOrder) (payment_intent (pl_session p))
                               (firstPaymentMethod (payment_method_types (pl_session p)))
                               (pl_orderTotal p) ;;
  shoppingCart_clearItems (metadata_cartId (pl_session p)) ;;;
  ret newOrder.

(** The body of the [try] block of [handleCheckoutSessionCompleted]. *)
Definition settlementBody (session : Session) (now : Z) : M DB unit :=
  fun db =>
    match readPhase session now db with
    | Throw e => (Throw e, db)
    | Ok None => (Ok tt, db)
    | Ok (Some p) =>
        match transaction rollback (writePhase p) db with
        | (Ok _, db') => (Ok tt, db')
        | (Throw e, db') => (Throw e, db')
        end
    end.

(** [try { ... } catch (error) { console.error(...) }]: nothing is
    rethrown. *)
Definition handleCheckoutSessionCompleted (session : Session) (now : Z) : M DB unit :=
  fun db =>
    match settlementBody session now db with
    | (Ok _, db') => (Ok tt, db')
    | (Throw _, db') => (Ok tt, db')
    end.

Definition handleCheckoutSessionExpired (session : Session) : M DB unit := ret tt.

(** *** The webhook endpoint *)

Record Event := { type : string; data_object : Session }.

Record Response := { res_status : Z; res_body : string }.

Section Webhook.

(** [stripe.webhooks.constructEvent(req.body, sig, endpointSecret)] *)
Variable constructEvent : string -> string -> Result Event.

Definition dispatch (event : Event) (now : Z) : M DB unit :=
  if String.eqb (type event) "checkout.session.completed"
  then handleCheckoutSessionCompleted (data_object event) now
  else if String.eqb (type event) "checkout.session.expired"
  then handleCheckoutSessionExpired (data_object event)
  else ret tt.

Definition handleStripeWebhook (body sig : string) (now : Z) (db : DB) : Response * DB :=
  match constructEvent body sig with
  | Throw e => ({| res_status := 400; res_body := "Webhook Error" |}, db)
  | Ok event =>
      match dispatch event now db with
      | (Ok _, db') => ({| res_status := 200; res_body := "{ received: true }" |}, db')
      | (Throw _, db') => ({| res_status := 500; res_body := "{ error: 'Erro ao processar webhook.' }" |}, db')
      end
  end.

End Webhook.

(** *** Concurrent deliveries

    The handler touches the store at two places separated by [await]:
    its reads (steps 1 and 2) and its transaction (step 3).  Node runs
    other requests in between, so [N] concurrent deliveries are an
    interleaving of [Reads r] and [Commits r] actions, request [r]
    committing with what it read. *)

Inductive Action : Type :=
| Reads (r : nat)
| Commits (r : nat).

Record Sched := {
  store : DB;
  pending : gmap nat Plan;
  settled : list nat
}.

Definition step (requests : list (Session * Z)) (st : Sched) (a : Action) : Sched :=
  match a with
  | Reads r =>
      match requests !! r with
      | Some (session, now) =>
          match readPhase session now (store st) with
          | Ok (Some p) => {| store := store st; pending := <[r := p]> (pending st);
                              settled := settled st |}
          | _ => st
          end
      | None => st
      end
  | Commits r =>
      match pending st !! r with
      | Some p =>
          match transaction rollback (writePhase p) (store st) with
          | (Ok _, db') => {| store := db'; pending := delete r (pending st);
                              settled := settled st ++ [r] |}
          | (Throw _, db') => {| store := db'; pending := delete r (pending st);
                                 settled := settled st |}
          end
      | None => st
      end
  end.

Definition run (requests : list (Session * Z)) (schedule : list Action) (db : DB) : Sched :=
  fold_left (step requests) schedule {| store := db; pending := ∅; settled := [] |}.

(** *** Vocabulary of the statements *)

(** Units of variant [v] bought by a list of cart items. *)
Fixpoint purchased (items : list CartItem) (v : Z) : Z :=
  match items with
  | [] => 0
  | item :: rest => (if variantId item =? v then quantity item else 0) + purchased rest v
  end.

Definition itemsOfCart (cid : Z) (db : DB) : list CartItem :=
  filter (fun it => cartId it = cid) (cartItems db).

Definition sumTotals (lis : list OrderLineItem) : Z :=
  fold_right Z.add 0 (map li_total lis).

(** A line item as the spec describes it: priced at the cart item's own
    snapshot. *)
Definition FrozenFromCartSnapshot (db : DB) (item : CartItem) (li : OrderLineItem) : Prop :=
  li_price li = itemPrice item /\
  li_total li = li_price li * quantity item /\
  exists variant product,
    productVariants db !! variantId item = Some variant /\
    products db !! productId item = Some product /\
    li_title li = name product /\
    li_variantTitle li = title variant /\
    li_sku li = sku variant.

(** A line item as the handler builds it: priced at the variant's price
    read at settlement. *)
Definition FrozenFromVariant (db : DB) (item : CartItem) (li : OrderLineItem) : Prop :=
  exists variant product,
    productVariants db !! variantId item = Some variant /\
    products db !! productId item = Some product /\
    li_price li = price variant /\
    li_total li = li_price li * quantity item /\
    li_quantity li = quantity item /\
    li_productId li = productId item /\
    li_variantId li = variantId item /\
    li_title li = name product /\
    li_variantTitle li = title variant /\
    li_sku li = sku variant.

(** Rows of the four tables the settlement writes. *)
Definition sameRows (db db' : DB) : Prop :=
  productVariants db' = productVariants db /\
  orders db' = orders db /\
  orderTransactions db' = orderTransactions db /\
  cartItems db' = cartItems db.

(** The stock column after the decrements of a list of cart items. *)
Fixpoint decrementAll (items : list CartItem) (m : gmap Z ProductVariant) : gmap Z ProductVariant :=
  match items with
  | [] => m
  | item :: rest => decrementAll rest (alter (decStock (quantity item)) (variantId item) m)
  end.

(** The rows the transaction body inserts. *)
Definition mkOrder (id : Z) (p : Plan) (u : User) : Order :=
  {| o_id := id; orderNumber := pl_orderNumber p;
     o_userId := metadata_userId (pl_session p); o_email := email u;
     subtotal := pl_orderTotal p; taxAmount := 0; shippingAmount := 0;
     totalAmount := pl_orderTotal p;
     status := "processing"; financialStatus := "paid";
     fulfillmentStatus := "unfulfilled"; lineItems := pl_lineItemsData p |}.

Definition mkTransaction (id oid : Z) (p : Plan) : OrderTransaction :=
  {| ot_id := id; orderId := oid; stripeId := payment_intent (pl_session p);
     stripeObjectType := "checkout.session"; ot_status := "succeeded";
     paymentMethod := firstPaymentMethod (payment_method_types (pl_session p));
     amount := pl_orderTotal p; feeAmount := 0 |}.

(** What tells a variant apart from its stock. *)
Definition variantIdentity (v : ProductVariant) : Z * Z * string * string :=
  (pv_productId v, price v, sku v, title v).

(** *** Sample stores *)

(** One user, one cart holding two units of a variant that was added at
    9.00 and now costs 10.00, five in stock. *)
Definition shoe42 : ProductVariant :=
  {| pv_productId := 1; price := 1000; sku := "SKU-10"; stock := 5; title := "42" |}.

Definition item1 : CartItem :=
  {| ci_id := 1; cartId := 3; productId := 1; variantId := 10; quantity := 2; itemPrice := 900 |}.

Definition shop : DB :=
  {| users := {[ 7 := {| email := "ana@example.org" |} ]};
     products := {[ 1 := {| name := "Shoe" |} ]};
     productVariants := {[ 10 := shoe42 ]};
     shoppingCarts := {[ 3 := {| sc_userId := 7 |} ]};
     cartItems := [ item1 ];
     orders := []; orderTransactions := [];
     orderSeq := 0; transactionSeq := 0 |}.

Definition paid : Session :=
  {| session_id := "cs_1"; metadata_userId := 7; metadata_cartId := 3;
     payment_intent := "pi_1"; payment_method_types := ["card"] |}.

Definition line1 : OrderLineItem :=
  {| li_productId := 1; li_variantId := 10; li_quantity := 2; li_price := 1000;
     li_total := 2000; li_title := "Shoe"; li_variantTitle := "42"; li_sku := "SKU-10" |}.

Definition plan1 : Plan :=
  {| pl_session := paid; pl_items := [ item1 ];
     pl_user := Some {| email := "ana@example.org" |};
     pl_orderNumber := {| on_time := 1000; on_user := 7 |};
     pl_lineItemsData := [ line1 ]; pl_orderTotal := 2000 |}.

Definition order1 : Order := mkOrder 1 plan1 {| email := "ana@example.org" |}.

(** Two users, each with one unit of the last pair in the cart. *)
Definition lastPair : DB :=
  {| users := {[ 7 := {| email := "ana@example.org" |}; 8 := {| email := "rui@example.org" |} ]};
     products := {[ 1 := {| name := "Shoe" |} ]};
     productVariants := {[ 10 := {| pv_productId := 1; price := 1000; sku := "SKU-10";
                                    stock := 1; title := "42" |} ]};
     shoppingCarts := {[ 3 := {| sc_userId := 7 |}; 4 := {| sc_userId := 8 |} ]};
     cartItems := [ {| ci_id := 1; cartId := 3; productId := 1; variantId := 10;
                       quantity := 1; itemPrice := 1000 |};
                    {| ci_id := 2; cartId := 4; productId := 1; variantId := 10;
                       quantity := 1; itemPrice := 1000 |} ];
     orders := []; orderTransactions := [];
     orderSeq := 0; transactionSeq := 0 |}.

Definition paidByAna : Session :=
  {| session_id := "cs_A"; metadata_userId := 7; metadata_cartId := 3;
     payment_intent := "pi_A"; payment_method_types := ["card"] |}.

Definition paidByRui : Session :=
  {| session_id := "cs_B"; metadata_userId := 8; metadata_cartId := 4;
     payment_intent := "pi_B"; payment_method_types := ["card"] |}.

(** A gateway library that accepts every payload as the completed
    session [paid]. *)
Definition acceptAll (body sig : string) : Result Event :=
  Ok {| type := "checkout.session.completed"; data_object := paid |}.

(** [shop] after the settlement of [paid], the buyer having put one more
    unit in the cart. *)
Definition refilled : DB :=
  set_cartItems (fun _ => [ {| ci_id := 2; cartId := 3; productId := 1; variantId := 10;
                               quantity := 1; itemPrice := 1000 |} ])
                (snd (handleCheckoutSessionCompleted paid 1000 shop)).

(** What a redelivery of [paid] reads on [refilled]. *)
Definition plan2 : Plan :=
  {| pl_session := paid;
     pl_items := [ {| ci_id := 2; cartId := 3; productId := 1; variantId := 10;
                      quantity := 1; itemPrice := 1000 |} ];
     pl_user := Some {| email := "ana@example.org" |};
     pl_orderNumber := {| on_time := 2000; on_user := 7 |};
     pl_lineItemsData :=
       [ {| li_productId := 1; li_variantId := 10; li_quantity := 1; li_price := 1000;
            li_total := 1000; li_title := "Shoe"; li_variantTitle := "42";
            li_sku := "SKU-10" |} ];
     pl_orderTotal := 1000 |}.

End Payment.

(* ================================================================== *)
(** ** utils/cartUtils.js, routes/cart.js, routes/order.js *)
(* ================================================================== *)

Module Cart.

(** *** JavaScript numbers *)

(** An integer as a JavaScript number. *)
Definition Number (n : Z) : float :=
  if n <? 0 then (- PrimFloat.of_uint63 (Uint63.of_Z (- n)))%float
  else PrimFloat.of_uint63 (Uint63.of_Z n).

(** [parseFloat(item.itemPrice.toString())] on a [DECIMAL(10,2)] value of
    [cents] hundredths: the binary64 number nearest to [cents / 100],
    which is what the correctly rounded division of two exact numbers
    returns. *)
Definition parseFloat (cents : Z) : float :=
  (Number cents / Number 100)%float.

(** *** Numbers written to a [DECIMAL(10,2)] column *)

(** The whole hundredths in [m * 2^e]. *)
Definition hundredths (m : positive) (e : Z) : Z :=
  match e with
  | Zneg p => (100 * Zpos m) / 2 ^ Zpos p
  | _ => 100 * Zpos m * 2 ^ e
  end.

(** The value a [DECIMAL(10,2)] column takes when a JavaScript number is
    written to it, in cents, or [None] when the write is refused.  The
    number reaches the database as its decimal text (the shortest one
    that reads back as the same binary64 number), which the column rounds
    at two decimals, halves away from zero; a text of [lo] hundredths and
    a half or more is the text of a number at or above the binary64
    number nearest to that half.  NaN and the infinities have no such
    text, and a rounded value of 10^8 or more overflows the column. *)
Definition toDecimal10_2 (x : float) : option Z :=
  match Prim2SF x with
  | S754_zero _ => Some 0
  | S754_finite s m e =>
      let lo := hundredths m e in
      if 10000000000 <=? lo then None
      else
        let half := (Number (10 * lo + 5) / Number 1000)%float in
        let n := if PrimFloat.leb half (PrimFloat.abs x) then lo + 1 else lo in
        if 10000000000 <=? n then None
        else Some (if s then - n else n)
  | _ => None
  end.

(** *** JavaScript strings *)

(** [s.length] counts UTF-16 code units; a string is held here as its
    UTF-8 bytes.  A character of one, two or three bytes is one unit, a
    character of four bytes is two; continuation bytes count for nothing. *)
Fixpoint jsLength (s : string) : nat :=
  match s with
  | EmptyString => 0
  | String c rest =>
      let b := Ascii.nat_of_ascii c in
      ((if b <? 128 then 1 else if b <? 192 then 0 else if b <? 240 then 1 else 2)
       + jsLength rest)%nat
  end.

(** *** Tables touched by the cart and order routes *)

Record ProductVariant := { pv_productId : Z; price : Z }.

Record CartRow := {
  c_id : Z;
  userId : Z;
  cartStatus : string;
  totalPrice : Z;            (* total_price DECIMAL(10,2), in cents *)
  completedAt : option Z;
  c_orderId : option Z
}.

Record CartItem := {
  ci_id : Z;
  cartId : Z;
  productId : Z;
  variantId : Z;
  quantity : Z;
  itemPrice : Z
}.

Record Order := {
  o_id : Z;
  o_userId : Z;
  orderStatus : string;
  o_totalPrice : Z;          (* DECIMAL(10,2), in cents *)
  shippingAddress : string;
  paymentMethod : string;
  notes : option string
}.

Record OrderItem := {
  oi_orderId : Z;
  oi_productId : Z;
  oi_variantId : Z;
  oi_quantity : Z;
  priceAtPurchase : Z
}.

Record DB := {
  users : gset Z;
  products : gset Z;
  productVariants : gmap Z ProductVariant;
  carts : list CartRow;
  cartItems : list CartItem;
  orders : list Order;
  orderItems : list OrderItem;
  cartSeq : Z;
  cartItemSeq : Z;
  orderSeq : Z
}.

Definition set_carts (f : list CartRow -> list CartRow) (db : DB) : DB :=
  {| users := users db; products := products db; productVariants := productVariants db;
     carts := f (carts db); cartItems := cartItems db;
     orders := orders db; orderItems := orderItems db;
     cartSeq := cartSeq db; cartItemSeq := cartItemSeq db; orderSeq := orderSeq db |}.

Definition set_cartItems (f : list CartItem -> list CartItem) (db : DB) : DB :=
  {| users := users db; products := products db; productVariants := productVariants db;
     carts := carts db; cartItems := f (cartItems db);
     orders := orders db; orderItems := orderItems db;
     cartSeq := cartSeq db; cartItemSeq := cartItemSeq db; orderSeq := orderSeq db |}.

Definition set_orders (f : list Order -> list Order) (db : DB) : DB :=
  {| users := users db; products := products db; productVariants := productVariants db;
     carts := carts db; cartItems := cartItems db;
     orders := f (orders db); orderItems := orderItems db;
     cartSeq := cartSeq db; cartItemSeq := cartItemSeq db; orderSeq := orderSeq db |}.

Definition set_orderItems (f : list OrderItem -> list OrderItem) (db : DB) : DB :=
  {| users := users db; products := products db; productVariants := productVariants db;
     carts := carts db; cartItems := cartItems db;
     orders := orders db; orderItems := f (orderItems db);
     cartSeq := cartSeq db; cartItemSeq := cartItemSeq db; orderSeq := orderSeq db |}.

Definition set_seqs (c i o : Z) (db : DB) : DB :=
  {| users := users db; products := products db; productVariants := productVariants db;
     carts := carts db; cartItems := cartItems db;
     orders := orders db; orderItems := orderItems db;
     cartSeq := c; cartItemSeq := i; orderSeq := o |}.

Definition rollback (before after : DB) : DB :=
  set_seqs (cartSeq after) (cartItemSeq after) (orderSeq after) before.

(** *** utils/cartUtils.js *)

(** [items.reduce((total, item) => total + itemPrice * item.quantity, 0)]
    on JavaScript numbers. *)
Definition calculateTotalPrice (items : list CartItem) : float :=
  fold_left (fun total item =>
               (total + parseFloat (itemPrice item) * Number (quantity item))%float)
            items (Number 0).


(** *** The Prisma calls of the routes *)

Definition isActiveCartOf (uid : Z) (c : CartRow) : bool :=
  (userId c =? uid) && String.eqb (cartStatus c) "ACTIVE".

(** [prisma.cart.findFirst({ where: { userId, cartStatus: 'ACTIVE' } })] *)
Definition cart_findActive (uid : Z) (db : DB) : option CartRow :=
  find (isActiveCartOf uid) (carts db).

Definition existsRow {A} (p : A -> bool) (l : list A) : bool := existsb p l.

(** [prisma.cart.create({ data: { userId, cartStatus: 'ACTIVE', totalPrice: 0.00 } })].
    The cart table has a unique index on [user_id] and a foreign key to
    the users: a user who already has a cart row, of whatever status, or
    who is not in the users table, gets no second one. *)
Definition cart_create (uid : Z) : M DB CartRow :=
  fun db =>
    let id := cartSeq db + 1 in
    let db1 := set_seqs id (cartItemSeq db) (orderSeq db) db in
    let row := {| c_id := id; userId := uid; cartStatus := "ACTIVE";
                  totalPrice := 0; completedAt := None; c_orderId := None |} in
    if existsRow (fun c => userId c =? uid) (carts db) then (Throw (PrismaError "P2002"), db1)
    else if negb (bool_decide (uid ∈ users db)) then (Throw (PrismaError "P2003"), db1)
    else (Ok row, set_carts (fun cs => cs ++ [row]) db1).

Definition itemsOfCart (cid : Z) (db : DB) : list CartItem :=
  filter (fun it => cartId it = cid) (cartItems db).

Definition cartItem_findUnique (id : Z) (db : DB) : option CartItem :=
  find (fun it => ci_id it =? id) (cartItems db).

Definition cart_findUnique (id : Z) (db : DB) : option CartRow :=
  find (fun c => c_id c =? id) (carts db).

Definition updateWhere {A} (p : A -> bool) (f : A -> A) (l : list A) : list A :=
  map (fun x => if p x then f x else x) l.

(** [prisma.cartItem.update({ where: { id }, data })] *)
Definition cartItem_update (id : Z) (f : CartItem -> CartItem) : M DB CartItem :=
  fun db =>
    match cartItem_findUnique id db with
    | None => (Throw (PrismaError "P2025"), db)
    | Some it =>
        if negb (fitsInt32 (quantity (f it))) then (Throw (PrismaError "P2020"), db)
        else (Ok (f it), set_cartItems (updateWhere (fun x => ci_id x =? id) f) db)
    end.

(** [prisma.cartItem.create({ data })]: foreign keys to the cart, the
    product and the variant, and the unique index on (cart, variant). *)
Definition cartItem_create (cid pid vid qty unitPrice : Z) : M DB CartItem :=
  fun db =>
    let id := cartItemSeq db + 1 in
    let db1 := set_seqs (cartSeq db) id (orderSeq db) db in
    let row := {| ci_id := id; cartId := cid; productId := pid; variantId := vid;
                  quantity := qty; itemPrice := unitPrice |} in
    if negb (existsRow (fun c => c_id c =? cid) (carts db)) then (Throw (PrismaError "P2003"), db1)
    else if negb (bool_decide (pid ∈ products db)) then (Throw (PrismaError "P2003"), db1)
    else if negb (bool_decide (is_Some (productVariants db !! vid))) then (Throw (PrismaError "P2003"), db1)
    else if existsRow (fun x => (cartId x =? cid) && (variantId x =? vid)) (cartItems db)
         then (Throw (PrismaError "P2002"), db1)
    else if negb (fitsInt32 qty) then (Throw (PrismaError "P2020"), db1)
    else (Ok row, set_cartItems (fun l => l ++ [row]) db1).

(** [prisma.cartItem.delete({ where: { id } })] *)
Definition cartItem_delete (id : Z) : M DB unit :=
  fun db =>
    match cartItem_findUnique id db with
    | None => (Throw (PrismaError "P2025"), db)
    | Some _ => (Ok tt, set_cartItems (filter (fun x => ci_id x ≠ id)) db)
    end.

(** [prisma.cart.update({ where: { id }, data })] *)
Definition cart_update (id : Z) (f : CartRow -> CartRow) : M DB unit :=
  fun db =>
    match cart_findUnique id db with
    | None => (Throw (PrismaError "P2025"), db)
    | Some _ => (Ok tt, set_carts (updateWhere (fun c => c_id c =? id) f) db)
    end.

Definition withTotalPrice (t : Z) (c : CartRow) : CartRow :=
  {| c_id := c_id c; userId := userId c; cartStatus := cartStatus c;
     totalPrice := t; completedAt := completedAt c; c_orderId := c_orderId c |}.

Definition withQuantity (q : Z) (it : CartItem) : CartItem :=
  {| ci_id := ci_id it; cartId := cartId it; productId := productId it;
     variantId := variantId it; quantity := q; itemPrice := itemPrice it |}.

Definition withQuantityAndPrice (q p : Z) (it : CartItem) : CartItem :=
  {| ci_id := ci_id it; cartId := cartId it; productId := productId it;
     variantId := variantId it; quantity := q; itemPrice := p |}.

(** [prisma.cart.update({ where: { id }, data: { totalPrice } })]: the
    row takes the number as the column rounds it. *)
Definition cart_updateTotalPrice (id : Z) (t : float) : M DB unit :=
  fun db =>
    match toDecimal10_2 t with
    | None => (Throw (PrismaError "P2020"), db)
    | Some cents => cart_update id (withTotalPrice cents) db
    end.

(** The closing lines of the three cart mutations:
    [findMany({ where: { cartId } })], [calculateTotalPrice], [cart.update].
    [findMany] is given no order; the rows are taken in table order. *)
Definition recalculateTotal (cid : Z) : M DB unit :=
  fun db =>
    let allItems := itemsOfCart cid db in
    let newTotalPrice := calculateTotalPrice allItems in
    cart_updateTotalPrice cid newTotalPrice db.

(** *** routes/cart.js *)

Record Response := { status : Z; error : option string }.

Definition respond (code : Z) : Response := {| status := code; error := None |}.
Definition fail (code : Z) (msg : string) : Response := {| status := code; error := Some msg |}.

Definition errorCode (e : Exn) : string :=
  match e with PrismaError c => c | _ => "" end.

(** [validateRequest(schema)] (utils/validateRequest.js).  A body the
    schema accepts goes on to the handler.  For a body it rejects, the
    [catch] block maps over [error.errors]; the [ZodError] of zod 4 keeps
    its findings under [issues] and has no [errors], so the block itself
    throws, and Express answers 500 without the handler having run. *)
Definition validateRequest (accepted : bool) (handler : DB -> Response * DB)
    (db : DB) : Response * DB :=
  if accepted then handler db else (respond 500, db).

(** [z.coerce.number().int().positive()]: a positive integer that a
    number holds exactly. *)
Definition positiveInt (n : Z) : bool :=
  (0 <? n) && (n <=? 9007199254740991).

(** [cartItemAddSchema]: positive integers (the schema lets [variantId]
    be left out; the calls modelled here carry one). *)
Definition cartItemAddSchema (pid vid qty : Z) : bool :=
  positiveInt pid && positiveInt qty && positiveInt vid.

(** The [try] block of [POST /api/cart/items]. *)
Definition addItem_try (uid pid vid qty : Z) : M DB Response :=
  cart <- (fun db => match cart_findActive uid db with
                     | Some c => (Ok c, db)
                     | None => cart_create uid db
                     end) ;;
  let cid := c_id cart in
  fun db =>
    let cartItem := find (fun it => (cartId it =? cid) && (productId it =? pid) && (variantId it =? vid))
                         (cartItems db) in
    match productVariants db !! vid with
    | None => (Ok (fail 404 "Variação de produto não encontrada."), db)
    | Some variant =>
        let pricePerUnit := price variant in
        (responseStatus <-
           match cartItem with
           | Some it =>
               let newQuantity := quantity it + qty in
               cartItem_update (ci_id it) (withQuantityAndPrice newQuantity pricePerUnit) ;;;
               ret 200
           | None =>
               cartItem_create cid pid vid qty pricePerUnit ;;;
               ret 201
           end ;;
         recalculateTotal cid ;;;
         ret (respond responseStatus)) db
    end.

(** [POST /api/cart/items] behind [authenticateToken] and
    [validateRequest]; the [catch] turns P2003 into 404 and anything else
    into 500. *)
Definition addItem (uid pid vid qty : Z) : DB -> Response * DB :=
  validateRequest (cartItemAddSchema pid vid qty) (fun db =>
    match addItem_try uid pid vid qty db with
    | (Ok r, db') => (r, db')
    | (Throw e, db') =>
        if String.eqb (errorCode e) "P2003"
        then (fail 404 "Produto ou variação inválida fornecida.", db')
        else (fail 500 "Falha interna do servidor.", db')
    end).

(** The ownership test shared by [PUT] and [DELETE /items/:itemId]. *)
Definition notOwnedActive (uid : Z) (c : CartRow) : bool :=
  negb (userId c =? uid) || negb (String.eqb (cartStatus c) "ACTIVE").

Definition updateItemQuantity_try (uid itemId newQty : Z) : M DB Response :=
  fun db =>
    match cartItem_findUnique itemId db with
    | None => (Ok (fail 404 "Item do carrinho não encontrado."), db)
    | Some cartItem =>
        match cart_findUnique (cartId cartItem) db with
        | None => (Throw (TypeError "Cannot read properties of null (reading 'userId')"), db)
        | Some cart =>
            if notOwnedActive uid cart
            then (Ok (fail 403 "Acesso negado: Este item não pertence ao seu carrinho ativo."), db)
            else (cartItem_update itemId (withQuantity newQty) ;;;
                  recalculateTotal (cartId cartItem) ;;;
                  ret (respond 200)) db
        end
    end.

(** [cartItemUpdateSchema]: a positive integer. *)
Definition cartItemUpdateSchema (newQty : Z) : bool := positiveInt newQty.

(** [PUT /api/cart/items/:itemId] behind [authenticateToken] and
    [validateRequest]; the [catch] turns P2025 into 404. *)
Definition updateItemQuantity (uid itemId newQty : Z) : DB -> Response * DB :=
  validateRequest (cartItemUpdateSchema newQty) (fun db =>
    match updateItemQuantity_try uid itemId newQty db with
    | (Ok r, db') => (r, db')
    | (Throw e, db') =>
        if String.eqb (errorCode e) "P2025"
        then (fail 404 "Item do carrinho não encontrado.", db')
        else (fail 500 "Falha interna do servidor.", db')
    end).

Definition removeItem_try (uid itemId : Z) : M DB Response :=
  fun db =>
    match cartItem_findUnique itemId db with
    | None => (Ok (fail 404 "Item do carrinho não encontrado."), db)
    | Some cartItem =>
        match cart_findUnique (cartId cartItem) db with
        | None => (Throw (TypeError "Cannot read properties of null (reading 'userId')"), db)
        | Some cart =>
            if notOwnedActive uid cart
            then (Ok (fail 403 "Acesso negado: Este item não pertence ao seu carrinho ativo."), db)
            else (cartItem_delete itemId ;;;
                  recalculateTotal (cartId cartItem) ;;;
                  ret (respond 204)) db
        end
    end.

(** [DELETE /api/cart/items/:itemId] *)
Definition removeItem (uid itemId : Z) (db : DB) : Response * DB :=
  match removeItem_try uid itemId db with
  | (Ok r, db') => (r, db')
  | (Throw e, db') =>
      if String.eqb (errorCode e) "P2025"
      then (fail 404 "Item do carrinho não encontrado.", db')
      else (fail 500 "Falha interna do servidor.", db')
  end.

(** *** routes/order.js *)

(** [orderCreateSchema]: [min] and [max] of a [z.string()] compare the
    string's [length]. *)
Definition orderCreateSchema (address method : string) (note : option string) : bool :=
  (5 <=? jsLength address)%nat && (jsLength address <=? 500)%nat &&
  (1 <=? jsLength method)%nat && (jsLength method <=? 100)%nat &&
  match note with
  | Some n => (jsLength n <=? 500)%nat
  | None => true
  end.

(** [tx.order.create({ data: { userId, orderStatus: 'PENDING', totalPrice, ... } })]:
    a foreign key to the users, and the total as its [DECIMAL(10,2)]
    column rounds it. *)
Definition order_create (uid : Z) (total : float) (address method : string)
    (note : option string) : M DB Order :=
  fun db =>
    let id := orderSeq db + 1 in
    let db1 := set_seqs (cartSeq db) (cartItemSeq db) id db in
    match toDecimal10_2 total with
    | None => (Throw (PrismaError "P2020"), db1)
    | Some cents =>
        let row := {| o_id := id; o_userId := uid; orderStatus := "PENDING";
                      o_totalPrice := cents; shippingAddress := address;
                      paymentMethod := method; notes := note |} in
        if negb (bool_decide (uid ∈ users db)) then (Throw (PrismaError "P2003"), db1)
        else (Ok row, set_orders (fun os => os ++ [row]) db1)
    end.

(** [tx.orderItem.createMany({ data })] *)
Definition orderItem_createMany (rows : list OrderItem) : M DB unit :=
  fun db => (Ok tt, set_orderItems (fun l => l ++ rows) db).

(** [tx.cartItem.deleteMany({ where: { cartId } })] *)
Definition cartItem_deleteMany (cid : Z) : M DB unit :=
  fun db => (Ok tt, set_cartItems (filter (fun it => cartId it ≠ cid)) db).

Definition completed (now oid : Z) (c : CartRow) : CartRow :=
  {| c_id := c_id c; userId := userId c; cartStatus := "COMPLETED";
     totalPrice := totalPrice c; completedAt := Some now; c_orderId := Some oid |}.

(** The callback handed to [prisma.$transaction] by [POST /api/orders]. *)
Definition checkout_tx (uid : Z) (address method : string) (note : option string)
    (now : Z) : M DB Order :=
  fun db =>
    match cart_findActive uid db with
    | None => (Throw (AppError "No active cart found to checkout."), db)
    | Some activeCart =>
        let items := itemsOfCart (c_id activeCart) db in
        if (length items =? 0)%nat
        then (Throw (AppError "Cart is empty. Cannot create an order."), db)
        else
          (let calculatedTotal := calculateTotalPrice items in
           newOrder <- order_create uid calculatedTotal address method note ;;
           let orderItemsData :=
             map (fun item => {| oi_orderId := o_id newOrder;
                                 oi_productId := productId item;
                                 oi_variantId := variantId item;
                                 oi_quantity := quantity item;
                                 priceAtPurchase := itemPrice item |}) items in
           orderItem_createMany orderItemsData ;;;
           cart_update (c_id activeCart) (completed now (o_id newOrder)) ;;;
           cartItem_deleteMany (c_id activeCart) ;;;
           ret newOrder) db
    end.

(** [POST /api/orders] behind [authenticateToken] and [validateRequest]. *)
Definition checkout (uid : Z) (address method : string) (note : option string)
    (now : Z) : DB -> Response * DB :=
  validateRequest (orderCreateSchema address method note) (fun db =>
    match transaction rollback (checkout_tx uid address method note now) db with
    | (Ok order, db') => (respond 201, db')
    | (Throw e, db') =>
        if includes "No active cart found" (message e) || includes "Cart is empty" (message e)
        then (fail 400 (message e), db')
        else (fail 500 "Falha no processo de checkout. Tente novamente mais tarde.", db')
    end).

(** *** routes/cart.js, [GET /api/cart] *)

Record CartView := {
  cv_status : Z;
  cv_cart : option CartRow;
  cv_items : list CartItem
}.

(** The [try] block of [GET /api/cart].  [cart.totalPrice !== totalPrice]
    compares the [Decimal] object read from the row with a number, which
    are never strictly equal, so the update is always issued. *)
Definition getCart_try (uid : Z) : M DB CartView :=
  fun db =>
    match cart_findActive uid db with
    | None =>
        (cart <- cart_create uid ;;
         ret {| cv_status := 201; cv_cart := Some cart; cv_items := [] |}) db
    | Some cart =>
        let totalPrice := calculateTotalPrice (itemsOfCart (c_id cart) db) in
        (cart_updateTotalPrice (c_id cart) totalPrice ;;;
         fun db' => (Ok {| cv_status := 200;
                           cv_cart := cart_findUnique (c_id cart) db';
                           cv_items := itemsOfCart (c_id cart) db' |}, db')) db
    end.

(** [GET /api/cart] behind [authenticateToken]. *)
Definition getCart (uid : Z) (db : DB) : CartView * DB :=
  match getCart_try uid db with
  | (Ok r, db') => (r, db')
  | (Throw _, db') => ({| cv_status := 500; cv_cart := None; cv_items := [] |}, db')
  end.

(** *** routes/order.js, [GET /api/orders/:orderId] *)



(** *** Vocabulary of the statements and sample stores *)

(** Whether the cart table takes a new row for the user: the user is
    known and has no cart row yet. *)
Definition canOpenCart (uid : Z) (db : DB) : bool :=
  negb (existsRow (fun c => userId c =? uid) (carts db)) && bool_decide (uid ∈ users db).

(** The row [POST /items] looks for. *)
Definition matches (cid pid vid : Z) (it : CartItem) : bool :=
  (cartId it =? cid) && (productId it =? pid) && (variantId it =? vid).

(** An order item as [POST /api/orders] copies it from a cart item. *)
Definition CopiedFrom (order : Order) (item : CartItem) (oi : OrderItem) : Prop :=
  oi_orderId oi = o_id order /\ oi_productId oi = productId item /\
  oi_variantId oi = variantId item /\ oi_quantity oi = quantity item /\
  priceAtPurchase oi = itemPrice item.




Definition succeeded (r : Response) : bool :=
  (200 <=? status r) && (status r <? 300).


(** One user with an empty active cart; a variant priced 0.10. *)
Definition dimeShop : DB :=
  {| users := {[ 7; 9 ]};
     products := {[ 1; 2 ]};
     productVariants := {[ 10 := {| pv_productId := 1; price := 10 |} ]};
     carts := [ {| c_id := 3; userId := 7; cartStatus := "ACTIVE"; totalPrice := 0;
                  completedAt := None; c_orderId := None |} ];
     cartItems := []; orders := []; orderItems := [];
     cartSeq := 3; cartItemSeq := 0; orderSeq := 0 |}.

(** [dimeShop] with three units in the cart, bought at 0.10 apiece; the
    variant has since gone up to 0.12. *)
Definition repriced : DB :=
  {| users := {[ 7; 9 ]};
     products := {[ 1; 2 ]};
     productVariants := {[ 10 := {| pv_productId := 1; price := 12 |} ]};
     carts := [ {| c_id := 3; userId := 7; cartStatus := "ACTIVE"; totalPrice := 30;
                  completedAt := None; c_orderId := None |} ];
     cartItems := [ {| ci_id := 1; cartId := 3; productId := 1; variantId := 10;
                       quantity := 3; itemPrice := 10 |} ];
     orders := []; orderItems := [];
     cartSeq := 3; cartItemSeq := 1; orderSeq := 0 |}.



(** Rows that differ in their quantity at most. *)
Definition sameButQuantity (old new : CartItem) : Prop :=
  ci_id new = ci_id old /\ cartId new = cartId old /\ productId new = productId old /\
  variantId new = variantId old /\ itemPrice new = itemPrice old.

(** Rows that differ in quantity and price snapshot at most. *)
Definition sameIdentity (old new : CartItem) : Prop :=
  ci_id new = ci_id old /\ cartId new = cartId old /\ productId new = productId old /\
  variantId new = variantId old.

End Cart.

(* ================================================================== *)
(** ** routes/payment.js, [POST /api/payment/checkout-session] *)
(* ================================================================== *)

Module PaymentSession.
Import Payment.

(** What is sent to [stripe.checkout.sessions.create]: the line items,
    the customer's e-mail and the correlation metadata. *)
Record StripeLineItem := {
  sl_name : string;
  sl_description : string;
  sl_unit_amount : Z;
  sl_quantity : Z
}.

Record SessionParams := {
  sp_line_items : list StripeLineItem;
  sp_customer_email : string;
  sp_userId : Z;
  sp_cartId : Z
}.

Record CheckoutSession := { cs_id : string; cs_url : string }.

Record SessionResponse := {
  sr_status : Z;
  sr_error : option string;
  sr_session : option CheckoutSession
}.

Definition refuse (code : Z) (msg : string) : SessionResponse :=
  {| sr_status := code; sr_error := Some msg; sr_session := None |}.

(** [Math.round(x)]: the integer nearest to [x], halves going up, read
    off the sign, mantissa and exponent of the binary64 number.  (The
    last branch is zero; infinities and NaN do not arise from a product
    of two finite prices.) *)
Definition Math_round (x : float) : Z :=
  match Prim2SF x with
  | S754_finite s m e =>
      let v := if s then Z.neg m else Z.pos m in
      if 0 <=? e then v * 2 ^ e
      else (2 * v + 2 ^ (- e)) `div` 2 ^ (1 - e)
  | _ => 0
  end.

(** [Math.round(new Decimal(item.variant.price).toNumber() * 100)] *)
Definition unit_amount (cents : Z) : Z :=
  Math_round (Cart.parseFloat cents * Cart.Number 100)%float.

(** Step 2, the pre-flight stock check: [Ok (Some msg)] is its early 400. *)
Fixpoint stockPrecheck (items : list ItemView) : Result (option string) :=
  match items with
  | [] => Ok None
  | item :: rest =>
      match iv_variant item with
      | None => Throw (TypeError "Cannot read properties of null (reading 'stock')")
      | Some variant =>
          if stock variant <? quantity (iv_item item)
          then match iv_product item with
               | None => Throw (TypeError "Cannot read properties of null (reading 'name')")
               | Some product =>
                   Ok (Some ("Stock insuficiente para " +:+ name product +:+
                             " (" +:+ title variant +:+ ")."))
               end
          else stockPrecheck rest
      end
  end.

(** Step 3, [cart.items.map(item => ({ price_data: ..., quantity }))]. *)
Fixpoint stripeLineItems (items : list ItemView) : Result (list StripeLineItem) :=
  match items with
  | [] => Ok []
  | item :: rest =>
      match iv_product item with
      | None => Throw (TypeError "Cannot read properties of null (reading 'name')")
      | Some product =>
          match iv_variant item with
          | None => Throw (TypeError "Cannot read properties of null (reading 'title')")
          | Some variant =>
              match stripeLineItems rest with
              | Throw e => Throw e
              | Ok more =>
                  Ok ({| sl_name := name product;
                         sl_description := title variant;
                         sl_unit_amount := unit_amount (price variant);
                         sl_quantity := quantity (iv_item item) |} :: more)
              end
          end
      end
  end.

Section Gateway.

(** [stripe.checkout.sessions.create] *)
Variable sessions_create : SessionParams -> Result CheckoutSession.

(** The route behind [authenticateToken].  [cartId] is the number of the
    request body, [None] when it is left out; [sent] collects what has
    been sent to the gateway.  The store is only read. *)
Definition createCheckoutSession (userId : Z) (cartId : option Z) (db : DB)
    (sent : list SessionParams) : SessionResponse * list SessionParams :=
  match cartId with
  | None => (refuse 400 "cartId é obrigatório.", sent)
  | Some cid =>
      if cid =? 0 then (refuse 400 "cartId é obrigatório.", sent)
      else
        match shoppingCarts db !! cid, shoppingCart_findUnique cid db with
        | Some cart, Some items =>
            if negb (sc_userId cart =? userId)
            then (refuse 404 "Carrinho não encontrado ou acesso negado.", sent)
            else if (length items =? 0)%nat
            then (refuse 400 "Carrinho vazio. Adicione itens antes de prosseguir.", sent)
            else
              let user := users db !! userId in
              match stockPrecheck items with
              | Throw _ => (refuse 500 "Falha ao criar sessão de pagamento.", sent)
              | Ok (Some msg) => (refuse 400 msg, sent)
              | Ok None =>
                  match stripeLineItems items, user with
                  | Ok lineItems, Some u =>
                      let params := {| sp_line_items := lineItems;
                                       sp_customer_email := email u;
                                       sp_userId := userId;
                                       sp_cartId := cid |} in
                      match sessions_create params with
                      | Ok session =>
                          ({| sr_status := 200; sr_error := None; sr_session := Some session |},
                           sent ++ [params])
                      | Throw _ =>
                          (refuse 500 "Falha ao criar sessão de pagamento.", sent ++ [params])
                      end
                  | _, _ => (refuse 500 "Falha ao criar sessão de pagamento.", sent)
                  end
              end
        | _, _ => (refuse 404 "Carrinho não encontrado ou acesso negado.", sent)
        end
  end.

End Gateway.

(** The session the gateway echoes back for what was sent to it. *)
Definition sessionOf (params : SessionParams) (sid intent : string) : Session :=
  {| session_id := sid; metadata_userId := sp_userId params; metadata_cartId := sp_cartId params;
     payment_intent := intent; payment_method_types := ["card"] |}.

(** A gateway that accepts every request. *)
Definition alwaysCreates (params : SessionParams) : Result CheckoutSession :=
  Ok {| cs_id := "cs_test"; cs_url := "https://checkout.stripe.com/c/pay/cs_test" |}.

(** A cart item as [include] gives it. *)
Definition view (db : DB) (it : CartItem) : ItemView :=
  {| iv_item := it;
     iv_variant := productVariants db !! variantId it;
     iv_product := products db !! productId it |}.

Definition InStock (db : DB) (item : CartItem) : Prop :=
  exists variant, productVariants db !! variantId item = Some variant /\
                  quantity item <= stock variant.

Definition LineOf (db : DB) (item : CartItem) (li : StripeLineItem) : Prop :=
  exists variant product,
    productVariants db !! variantId item = Some variant /\
    products db !! productId item = Some product /\
    sl_name li = name product /\
    sl_description li = title variant /\
    sl_unit_amount li = unit_amount (price variant) /\
    sl_quantity li = quantity item.

(** [shop] with one unit left in stock; the cart holds two. *)
Definition thinShop : DB :=
  set_productVariants (fun _ => {[ 10 := decStock 4 shoe42 ]}) shop.

(** A gateway library that rejects every signature. *)
Definition rejectAll (body sig : string) : Result Event :=
  Throw (AppError "No signatures found matching the expected signature for payload.").

(** [unit_amount c = c] for every [c] below [n], as one computation. *)
Definition centsRecoveredBelow (n : N) : bool :=
  snd (N.iter n (fun '(c, ok) => (c + 1, ok && (unit_amount c =? c))) (0, true)).

End PaymentSession.

(* ================================================================== *)
(** ** routes/wishlist.js *)
(* ================================================================== *)

Module Wishlist.

Record WishlistItem := {
  w_id : Z;
  w_userId : Z;
  w_productId : Z;
  w_variantId : Z
}.

(** The rows the routes read and write; a variant is kept with the
    product it belongs to. *)
Record DB := {
  products : gset Z;
  variantProduct : gmap Z Z;
  wishlist : list WishlistItem;
  wishlistSeq : Z
}.

Definition sameKey (uid vid : Z) (w : WishlistItem) : bool :=
  (w_userId w =? uid) && (w_variantId w =? vid).

(** [prisma.wishlist.findUnique({ where: { userId_variantId } })] *)
Definition wishlist_findUnique (uid vid : Z) (db : DB) : option WishlistItem :=
  find (sameKey uid vid) (wishlist db).

(** [prisma.wishlist.create]: foreign keys to product and variant, the
    unique index [wishlists_user_id_variant_id_key]. *)
Definition wishlist_create (uid pid vid : Z) : M DB WishlistItem :=
  fun db =>
    let id := wishlistSeq db + 1 in
    let db1 := {| products := products db; variantProduct := variantProduct db;
                  wishlist := wishlist db; wishlistSeq := id |} in
    let row := {| w_id := id; w_userId := uid; w_productId := pid; w_variantId := vid |} in
    if negb (bool_decide (pid ∈ products db)) then (Throw (PrismaError "P2003"), db1)
    else if negb (bool_decide (is_Some (variantProduct db !! vid))) then (Throw (PrismaError "P2003"), db1)
    else if existsb (sameKey uid vid) (wishlist db) then (Throw (PrismaError "P2002"), db1)
    else (Ok row, {| products := products db; variantProduct := variantProduct db;
                     wishlist := wishlist db ++ [row]; wishlistSeq := id |}).

(** [prisma.wishlist.delete({ where: { userId_variantId } })] *)
Definition wishlist_delete (uid vid : Z) : M DB unit :=
  fun db =>
    match wishlist_findUnique uid vid db with
    | None => (Throw (PrismaError "P2025"), db)
    | Some _ =>
        (Ok tt, {| products := products db; variantProduct := variantProduct db;
                   wishlist := filter (fun w => sameKey uid vid w = false) (wishlist db);
                   wishlistSeq := wishlistSeq db |})
    end.

(** [POST /api/wishlist] *)
Definition addToWishlist (uid pid vid : Z) (db : DB) : Z * DB :=
  if negb (bool_decide (pid ∈ products db)) then (404, db)
  else
    match variantProduct db !! vid with
    | None => (404, db)
    | Some owner =>
        if negb (owner =? pid) then (404, db)
        else
          match wishlist_findUnique uid vid db with
          | Some _ => (409, db)
          | None =>
              match wishlist_create uid pid vid db with
              | (Ok _, db') => (201, db')
              | (Throw e, db') =>
                  if String.eqb (Cart.errorCode e) "P2003" then (400, db') else (500, db')
              end
          end
    end.

(** [DELETE /api/wishlist/:variantId] *)
Definition removeFromWishlist (uid vid : Z) (db : DB) : Z * DB :=
  match wishlist_findUnique uid vid db with
  | None => (404, db)
  | Some _ =>
      match wishlist_delete uid vid db with
      | (Ok _, db') => (204, db')
      | (Throw _, db') => (500, db')
      end
  end.

(** [HEAD /api/wishlist/:variantId] *)
Definition inWishlist (uid vid : Z) (db : DB) : Z :=
  match wishlist_findUnique uid vid db with
  | Some _ => 200
  | None => 404
  end.

(** Every row pairs a variant with the product it belongs to. *)
Definition wellPaired (db : DB) : Prop :=
  Forall (fun w => variantProduct db !! w_variantId w = Some (w_productId w)) (wishlist db).

(** Two products; variant 10 belongs to product 1. *)
Definition catalogue : DB :=
  {| products := {[ 1; 2 ]}; variantProduct := {[ 10 := 1 ]};
     wishlist := []; wishlistSeq := 0 |}.

End Wishlist.

(* ================================================================== *)
(** ** utils/auth.js *)
(* ================================================================== *)

Module Auth.

(** [req.user] *)
Record ReqUser := { id : Z; email : string; role : string }.

(** What a middleware does: call [next()] or answer. *)
Inductive Outcome (A : Type) : Type :=
| Next (a : A)
| Answer (status : Z) (error : string).
Arguments Next {A} a.
Arguments Answer {A} status error.

(** [hdr.slice(n)] *)
Fixpoint slice (n : nat) (s : string) : string :=
  match n, s with
  | O, _ => s
  | S k, String _ rest => slice k rest
  | S _, EmptyString => EmptyString
  end.

Section Jwt.

(** [jwt.verify(token, process.env.JWT_SECRET)], giving the payload's
    [sub], [email] and [role]. *)
Variable verify : string -> Result ReqUser.

Definition authenticateToken (authorization : option string) : Outcome ReqUser :=
  match authorization with
  | None => Answer 401 "Token de autenticação em falta ou malformado."
  | Some hdr =>
      if String.eqb hdr "" || negb (String.prefix "Bearer " hdr)
      then Answer 401 "Token de autenticação em falta ou malformado."
      else
        let token := slice 7 hdr in
        match verify token with
        | Ok payload => Next {| id := id payload; email := email payload; role := role payload |}
        | Throw _ => Answer 401 "Token inválido ou expirado."
        end
  end.

End Jwt.

Definition requireAdmin (user : option ReqUser) : Outcome unit :=
  match user with
  | None => Answer 401 "Utilizador não autenticado."
  | Some u =>
      if negb (String.eqb (role u) "ADMIN") && negb (String.eqb (role u) "OWNER")
      then Answer 403 "Acesso negado: Permissões de administrador necessárias."
      else Next tt
  end.

Definition requireOwner (user : option ReqUser) : Outcome unit :=
  match user with
  | None => Answer 401 "Utilizador não autenticado."
  | Some u =>
      if negb (String.eqb (role u) "OWNER")
      then Answer 403 "Acesso negado: Apenas o proprietário pode executar esta ação."
      else Next tt
  end.

End Auth.

(* ================================================================== *)
(** ** Binary64 numbers and their values *)
(* ================================================================== *)

Module Binary64.






End Binary64.


(* ================================================================== *)
(** ** Facts about the settlement pipeline *)
(* ================================================================== *)

Module PaymentFacts.
Import Payment.

Lemma decStock_0 v : decStock 0 v = v.
Proof. destruct v; unfold decStock; simpl; f_equal; lia. Qed.

Lemma decStock_decStock a b v : decStock a (decStock b v) = decStock (b + a) v.
Proof. unfold decStock; simpl; f_equal; lia. Qed.

Lemma decrementAll_lookup items : forall m v,
  decrementAll items m !! v = decStock (purchased items v) <$> m !! v.
Proof.
  induction items as [|item rest IH]; intros m v; simpl.
  - destruct (m !! v); simpl; [by rewrite decStock_0 | done].
  - rewrite IH. destruct (Z.eqb_spec (variantId item) v) as [->|Hne].
    + rewrite lookup_alter_eq. destruct (m !! v); simpl; [|done].
      by rewrite decStock_decStock.
    + rewrite lookup_alter_ne by done. by rewrite Z.add_0_l.
Qed.

Lemma rollback_rows db db' : sameRows db (rollback db db').
Proof. by unfold sameRows, rollback. Qed.

(** The stock updates touch the variants only, and succeed exactly when
    every variant is there. *)
Lemma forEach_decrement items : forall db r db',
  forEach (fun item => productVariant_decrement (variantId item) (quantity item)) items db = (r, db') ->
  match r with
  | Ok _ => db' = set_productVariants (decrementAll items) db
  | Throw _ => True
  end.
Proof.
  induction items as [|item rest IH]; intros db r db' H; simpl in H.
  - unfold ret in H. injection H as <- <-. by destruct db.
  - unfold bind in H at 1. unfold productVariant_decrement in H at 1.
    destruct (productVariants db !! variantId item) eqn:Hv.
    + apply IH in H. destruct r; [|done]. subst db'. by destruct db.
    + by injection H as <- <-.
Qed.

Ltac split_ifs H :=
  repeat match type of H with
         | context [if ?b then _ else _] => destruct b eqn:?
         | context [match ?x with Some _ => _ | None => _ end] => destruct x eqn:?
         end.

(** What a committing transaction body has done. *)
Lemma writePhase_ok p db o db' :
  writePhase p db = (Ok o, db') ->
  exists u,
    pl_user p = Some u /\
    o = mkOrder (orderSeq db + 1) p u /\
    productVariants db' = decrementAll (pl_items p) (productVariants db) /\
    orders db' = orders db ++ [o] /\
    orderTransactions db' =
      orderTransactions db ++ [mkTransaction (transactionSeq db + 1) (o_id o) p] /\
    cartItems db' = filter (fun it => cartId it ≠ metadata_cartId (pl_session p)) (cartItems db) /\
    existsb (fun t => String.eqb (stripeId t) (payment_intent (pl_session p)))
            (orderTransactions db) = false.
Proof.
  unfold writePhase. intros H. unfold bind at 1 in H.
  destruct (forEach _ (pl_items p) db) as [[[]|e] db1] eqn:Hfe; [|done].
  apply forEach_decrement in Hfe. subst db1.
  unfold bind at 1 in H. destruct (pl_user p) as [u|]; [|done].
  exists u. unfold ret at 1 in H. unfold bind at 1 in H.
  unfold order_create in H. simpl in H.
  split_ifs H; try done.
  unfold bind at 1 in H. unfold orderTransaction_create in H. simpl in H.
  split_ifs H; try done.
  unfold bind at 1 in H. unfold shoppingCart_clearItems in H. simpl in H.
  split_ifs H; try done.
  unfold ret in H. injection H as <- <-. simpl.
  repeat split; done.
Qed.


Lemma items_of_views (db : DB) (l : list CartItem) :
  map iv_item (map (fun it => {| iv_item := it;
                                 iv_variant := productVariants db !! variantId it;
                                 iv_product := products db !! productId it |}) l) = l.
Proof. induction l as [|x l IH]; simpl; [done | by rewrite IH]. Qed.

(** What the loop has accumulated when it runs to its end. *)
Lemma collectLineItems_ok (db : DB) (items : list CartItem) :
  forall tot acc tot' lines,
  collectLineItems
    (map (fun it => {| iv_item := it;
                       iv_variant := productVariants db !! variantId it;
                       iv_product := products db !! productId it |}) items)
    tot acc = Ok (Some (tot', lines)) ->
  exists new,
    lines = acc ++ new /\
    Forall2 (FrozenFromVariant db) items new /\
    (items <> [] -> tot' = JsDecimal (newDecimal tot + sumTotals new)) /\
    (items = [] -> tot' = tot).
Proof.
  induction items as [|item rest IH]; intros tot acc tot' lines H; simpl in H.
  - injection H as <- <-. exists []. rewrite app_nil_r. repeat split; [constructor | done].
  - destruct (productVariants db !! variantId item) as [variant|] eqn:Hv; [|done].
    destruct (stock variant <? quantity item); [done|].
    destruct (products db !! productId item) as [product|] eqn:Hp; [|done].
    apply IH in H as (new & -> & Hall & Hne & Hnil).
    eexists (_ :: new). rewrite <- app_assoc. simpl. split; [reflexivity|].
    split.
    + constructor; [|exact Hall]. exists variant, product. simpl. repeat split; done.
    + split; [intros _|done].
      destruct rest as [|r rest'].
      * rewrite Hnil by done. inversion Hall; subst. unfold sumTotals; simpl. f_equal. lia.
      * rewrite Hne by done. unfold sumTotals; simpl. f_equal. lia.
Qed.

(** The plan the reads lead to. *)
Lemma readPhase_plan session now db p :
  readPhase session now db = Ok (Some p) ->
  pl_session p = session /\
  pl_items p = itemsOfCart (metadata_cartId session) db /\
  pl_user p = users db !! metadata_userId session /\
  Forall2 (FrozenFromVariant db) (pl_items p) (pl_lineItemsData p) /\
  pl_orderTotal p = sumTotals (pl_lineItemsData p).
Proof.
  unfold readPhase, shoppingCart_findUnique, itemsOfCart. intros H.
  destruct (shoppingCarts db !! metadata_cartId session); [|done].
  set (items := filter (fun it => cartId it = metadata_cartId session) (cartItems db)) in *.
  destruct (collectLineItems _ _ _) as [[[tot lines]|]|] eqn:Hc; try done.
  apply collectLineItems_ok in Hc as (new & -> & Hall & Hne & Hnil).
  destruct (toNumber tot) as [orderTotal|] eqn:Ht; [|done].
  injection H as <-. simpl. rewrite items_of_views.
  repeat split; try done.
  destruct items as [|i l].
  - rewrite Hnil in Ht by done. done.
  - rewrite Hne in Ht by done. simpl in Ht. injection Ht as <-. lia.
Qed.

(** Every delivery either leaves the rows alone or commits the whole
    transaction body. *)
Lemma handler_cases session now db :
  let db' := snd (handleCheckoutSessionCompleted session now db) in
  sameRows db db' \/
  exists p o, readPhase session now db = Ok (Some p) /\ writePhase p db = (Ok o, db').
Proof.
  unfold handleCheckoutSessionCompleted, settlementBody.
  destruct (readPhase session now db) as [[p|]|e] eqn:Hr; simpl.
  - unfold transaction. destruct (writePhase p db) as [[o|e] db1] eqn:Hw; simpl.
    + right. by exists p, o.
    + left. apply rollback_rows.
  - left. by unfold sameRows.
  - left. by unfold sameRows.
Qed.

Lemma handler_commit session now db p :
  readPhase session now db = Ok (Some p) ->
  snd (handleCheckoutSessionCompleted session now db) =
    snd (transaction rollback (writePhase p) db).
Proof.
  intros Hr. unfold handleCheckoutSessionCompleted, settlementBody. rewrite Hr.
  by destruct (transaction rollback (writePhase p) db) as [[?|?] ?].
Qed.

Lemma no_new_last {A} (l : list A) (x : A) : l ++ [x] <> l.
Proof.
  intros H. apply (f_equal length) in H. rewrite length_app in H. simpl in H. lia.
Qed.

(** An order appended by a delivery is the one its transaction built. *)
Lemma handler_new_order session now db o :
  orders (snd (handleCheckoutSessionCompleted session now db)) = orders db ++ [o] ->
  exists p, readPhase session now db = Ok (Some p) /\
            writePhase p db = (Ok o, snd (handleCheckoutSessionCompleted session now db)).
Proof.
  intros H. destruct (handler_cases session now db) as [(_ & Ho & _)|(p & o' & Hr & Hw)].
  - rewrite Ho in H. symmetry in H. by apply no_new_last in H.
  - exists p. split; [done|].
    destruct (writePhase_ok _ _ _ _ Hw) as (u & _ & _ & _ & Ho & _).
    rewrite Ho in H. apply app_inv_head in H. injection H as ->. done.
Qed.


(** C1.  Once a delivery has done its reads, its settlement sub-steps
    stand or fall together.  When the transaction body throws at any
    sub-step, the delivery leaves no order row, no transaction row, no
    stock decrement and no cart-item deletion behind.  When the body
    returns, all four are there: every variant is still in the table with
    its product, price, sku and title, and its stock is what it was less
    the units the cart held of it; the order is appended with its line
    items; one transaction row points to that order and carries the
    payment identifier; and the cart's items are gone. *)
Theorem settlement_atomic session now db p :
  readPhase session now db = Ok (Some p) ->
  let db' := snd (handleCheckoutSessionCompleted session now db) in
  match fst (writePhase p db) with
  | Throw _ => sameRows db db'
  | Ok newOrder =>
      (forall v variant,
         productVariants db !! v = Some variant ->
         exists variant',
           productVariants db' !! v = Some variant' /\
           stock variant' =
             stock variant - purchased (itemsOfCart (metadata_cartId session) db) v /\
           variantIdentity variant' = variantIdentity variant) /\
      (forall v, productVariants db !! v = None -> productVariants db' !! v = None) /\
      orders db' = orders db ++ [newOrder] /\
      lineItems newOrder = pl_lineItemsData p /\
      (exists t, orderTransactions db' = orderTransactions db ++ [t] /\
                 orderId t = o_id newOrder /\
                 stripeId t = payment_intent session) /\
      cartItems db' = filter (fun it => cartId it ≠ metadata_cartId session) (cartItems db)
  end.
Proof.
  intros Hr db'. subst db'. rewrite (handler_commit _ _ _ _ Hr).
  destruct (readPhase_plan _ _ _ _ Hr) as (Hs & Hi & _).
  unfold transaction.
  destruct (writePhase p db) as [[o|e] db1] eqn:Hw; simpl.
  - destruct (writePhase_ok _ _ _ _ Hw) as (u & Hu & Ho & Hv & Hos & Hts & Hci & _).
    rewrite Hs in *. rewrite Hi in *.
    split.
    { intros v variant Hlook. rewrite Hv, decrementAll_lookup, Hlook. simpl.
      eexists. split; [reflexivity|]. by split. }
    split; [intros v Hlook; by rewrite Hv, decrementAll_lookup, Hlook|].
    split; [done|]. split; [by rewrite Ho|].
    split; [|done].
    eexists. split; [exact Hts|]. simpl. by rewrite Hs.
  - apply rollback_rows.
Qed.

Lemma settlement_atomic_witness :
  readPhase paid 1000 shop = Ok (Some plan1) /\
  orders (snd (handleCheckoutSessionCompleted paid 1000 shop)) = orders shop ++ [order1] /\
  exists variant',
    productVariants (snd (handleCheckoutSessionCompleted paid 1000 shop)) !! 10 = Some variant' /\
    stock variant' = 5 - 2 /\
    variantIdentity variant' = variantIdentity shoe42.
Proof.
  split; [reflexivity|].
  pose proof (settlement_atomic paid 1000 shop plan1 eq_refl) as H.
  simpl in H. destruct H as (Hstock & _ & Horders & _).
  split; [exact Horders|].
  exact (Hstock 10 shoe42 eq_refl).
Defined.


(** The rollback is what the atomicity rests on: on [refilled] the body
    decrements the stock and inserts an order before the unique index on
    [stripe_id] rejects the transaction row; run bare it would leave both
    behind, run under [transaction] it leaves neither. *)
Lemma rollback_undoes_partial_settlement :
  exists p,
    readPhase paid 2000 refilled = Ok (Some p) /\
    fst (writePhase p refilled) = Throw (PrismaError "P2002") /\
    length (orders (snd (writePhase p refilled))) = 2%nat /\
    stock <$> productVariants (snd (writePhase p refilled)) !! 10 = Some 2 /\
    length (orders (snd (transaction rollback (writePhase p) refilled))) = 1%nat /\
    stock <$> productVariants (snd (transaction rollback (writePhase p) refilled)) !! 10 = Some 3.
Proof. exists plan2. vm_compute. by repeat split. Qed.

(** A delivery for a payment that already has its transaction row writes
    nothing, whatever has happened to the cart since. *)
Lemma recorded_payment_noop session now db :
  existsb (fun t => String.eqb (stripeId t) (payment_intent session)) (orderTransactions db) = true ->
  sameRows db (snd (handleCheckoutSessionCompleted session now db)).
Proof.
  intros Hex. destruct (handler_cases session now db) as [H|(p & o & Hr & Hw)]; [done|].
  destruct (readPhase_plan _ _ _ _ Hr) as (Hs & _).
  destruct (writePhase_ok _ _ _ _ Hw) as (_ & _ & _ & _ & _ & _ & _ & Hno).
  rewrite Hs in Hno. congruence.
Qed.

Lemma existsb_snoc {A} (f : A -> bool) (l : list A) (x : A) :
  existsb f (l ++ [x]) = existsb f l || f x.
Proof. rewrite existsb_app. simpl. by rewrite orb_false_r. Qed.

(** A delivery that adds an order also records the payment, and no row
    carried that payment before. *)
Lemma first_delivery_records session now db :
  let db1 := snd (handleCheckoutSessionCompleted session now db) in
  orders db1 <> orders db ->
  existsb (fun t => String.eqb (stripeId t) (payment_intent session)) (orderTransactions db1) = true /\
  exists o t,
    orders db1 = orders db ++ [o] /\
    orderTransactions db1 = orderTransactions db ++ [t] /\
    orderId t = o_id o /\
    stripeId t = payment_intent session /\
    Forall (fun t' => stripeId t' <> payment_intent session) (orderTransactions db).
Proof.
  intros db1 Hnew.
  destruct (handler_cases session now db) as [(_ & Ho & _)|(p & o & Hr & Hw)]; [done|].
  fold db1 in Hw.
  destruct (readPhase_plan _ _ _ _ Hr) as (Hs & _).
  destruct (writePhase_ok _ _ _ _ Hw) as (u & _ & _ & _ & Hos & Hts & _ & Hno).
  rewrite Hs in *. split.
  - rewrite Hts, existsb_snoc. simpl. rewrite Hs, String.eqb_refl. apply orb_true_r.
  - eexists o, _. split; [exact Hos|]. split; [exact Hts|].
    simpl. rewrite Hs. repeat split.
    apply List.Forall_forall. intros t' Hin Heq.
    assert (existsb (fun t => String.eqb (stripeId t) (payment_intent session))
                    (orderTransactions db) = true); [|congruence].
    apply existsb_exists. exists t'. split; [done|]. by apply String.eqb_eq.
Qed.

(** C2.  Delivering one "checkout session completed" event twice: when
    the first delivery has settled (it added an order), the second writes
    no row at all, so after both deliveries the store holds exactly one
    new order and exactly one new transaction row, that row points to that
    order and carries the session's payment identifier, and no earlier
    transaction row carried it. *)
Theorem settlement_idempotent session t1 t2 db :
  let db1 := snd (handleCheckoutSessionCompleted session t1 db) in
  let db2 := snd (handleCheckoutSessionCompleted session t2 db1) in
  orders db1 <> orders db ->
  sameRows db1 db2 /\
  exists o t,
    orders db2 = orders db ++ [o] /\
    orderTransactions db2 = orderTransactions db ++ [t] /\
    orderId t = o_id o /\
    stripeId t = payment_intent session /\
    Forall (fun t' => stripeId t' <> payment_intent session) (orderTransactions db).
Proof.
  intros db1 db2 Hnew.
  destruct (first_delivery_records session t1 db Hnew) as (Hrec & o & t & Hos & Hts & Hrest).
  fold db1 in Hrec, Hos, Hts.
  pose proof (recorded_payment_noop session t2 db1 Hrec) as Hsame. fold db2 in Hsame.
  split; [exact Hsame|].
  destruct Hsame as (_ & Ho2 & Ht2 & _).
  exists o, t. rewrite Ho2, Ht2. split; [exact Hos|]. split; [exact Hts|]. exact Hrest.
Qed.

Lemma settlement_idempotent_witness :
  orders (snd (handleCheckoutSessionCompleted paid 1000 shop)) <> orders shop /\
  orders (snd (handleCheckoutSessionCompleted paid 2000
                 (snd (handleCheckoutSessionCompleted paid 1000 shop)))) =
  orders (snd (handleCheckoutSessionCompleted paid 1000 shop)).
Proof.
  assert (Hne : orders (snd (handleCheckoutSessionCompleted paid 1000 shop)) <> orders shop)
    by (vm_compute; discriminate).
  split; [exact Hne|].
  exact (proj1 (proj2 (proj1 (settlement_idempotent paid 1000 2000 shop Hne)))).
Defined.

(** Two deliveries of one event never add more than one order. *)
Lemma duplicate_delivery_one_order_at_most session t1 t2 db :
  let db1 := snd (handleCheckoutSessionCompleted session t1 db) in
  let db2 := snd (handleCheckoutSessionCompleted session t2 db1) in
  (length (orders db2) <= S (length (orders db)))%nat.
Proof.
  intros db1 db2.
  destruct (handler_cases session t1 db) as [(_ & Ho & _)|(p & o & Hr & Hw)].
  - fold db1 in Ho.
    destruct (handler_cases session t2 db1) as [(_ & Ho2 & _)|(p & o & Hr & Hw)].
    + fold db2 in Ho2. rewrite Ho2, Ho. lia.
    + fold db2 in Hw. destruct (writePhase_ok _ _ _ _ Hw) as (u & _ & _ & _ & Hos & _).
      rewrite Hos, Ho, length_app. simpl. lia.
  - fold db1 in Hw.
    assert (Hne : orders db1 <> orders db).
    { destruct (writePhase_ok _ _ _ _ Hw) as (u & _ & _ & _ & Hos & _).
      rewrite Hos. apply no_new_last. }
    destruct (first_delivery_records session t1 db Hne) as (Hrec & o' & t & Hos & _).
    fold db1 in Hrec, Hos.
    destruct (recorded_payment_noop session t2 db1 Hrec) as (_ & Ho2 & _).
    fold db2 in Ho2. rewrite Ho2, Hos, length_app. simpl. lia.
Qed.


Lemma webhook_verified_status constructEvent body sig now db event :
  constructEvent body sig = Ok event ->
  res_status (fst (handleStripeWebhook constructEvent body sig now db)) = 200.
Proof.
  intros Hev. unfold handleStripeWebhook, dispatch. rewrite Hev.
  destruct (String.eqb (type event) "checkout.session.completed").
  - unfold handleCheckoutSessionCompleted.
    by destruct (settlementBody (data_object event) now db) as [[?|?] ?].
  - by destruct (String.eqb (type event) "checkout.session.expired").
Qed.

(** C3 (the code departs from the claim).  The webhook answers 200 to
    an authenticated "checkout session completed" event although the
    settlement threw: once for the redelivery of a settled session, whose
    emptied cart makes [totalAmount.toNumber()] a [TypeError], and once
    for a redelivery after the cart was filled again, where the unique
    index on [stripe_id] rejects the transaction row (P2002) and the
    transaction is rolled back.  [handleCheckoutSessionCompleted] catches
    every exception, so the 500 branch of [handleStripeWebhook] is never
    taken ([webhook_verified_status]). *)
Theorem webhook_acknowledges_failed_settlement :
  let db1 := snd (handleCheckoutSessionCompleted paid 1000 shop) in
  (fst (settlementBody paid 2000 db1) = Throw (TypeError "totalAmount.toNumber is not a function") /\
   res_status (fst (handleStripeWebhook acceptAll "" "" 2000 db1)) = 200) /\
  (fst (settlementBody paid 2000 refilled) = Throw (PrismaError "P2002") /\
   res_status (fst (handleStripeWebhook acceptAll "" "" 2000 refilled)) = 200).
Proof. vm_compute. repeat split. Qed.

(** One request scheduled alone is the handler. *)
Lemma run_alone session now db :
  store (run [(session, now)] [Reads 0%nat; Commits 0%nat] db) =
  snd (handleCheckoutSessionCompleted session now db).
Proof.
  unfold run, handleCheckoutSessionCompleted, settlementBody. simpl.
  destruct (readPhase session now db) as [[p|]|e]; simpl; try done.
  rewrite lookup_insert_eq.
  by destruct (transaction rollback (writePhase p) db) as [[?|?] ?].
Qed.

(** C4 (the code departs from the claim).  Two deliveries for two carts
    that each hold one unit of a variant with stock 1, scheduled as
    read, read, commit, commit: both pass the stock check on what they
    read, both transactions commit, two orders exist and the stock is -1,
    while [floor(1/1) = 1] settlement at most should have succeeded. *)
Theorem concurrent_settlements_oversell :
  let requests := [(paidByAna, 1000); (paidByRui, 1001)] in
  let st := run requests [Reads 0%nat; Reads 1%nat; Commits 0%nat; Commits 1%nat] lastPair in
  stock <$> productVariants lastPair !! 10 = Some 1 /\
  stock <$> productVariants (store st) !! 10 = Some (-1) /\
  settled st = [0%nat; 1%nat] /\
  length (orders (store st)) = 2%nat /\
  1 `div` 1 = 1.
Proof. vm_compute. repeat split. Qed.

(** The loop lets a cart through only if every item passed the final
    stock check. *)
Lemma collectLineItems_checked (db : DB) (items : list CartItem) :
  forall tot acc r,
  collectLineItems
    (map (fun it => {| iv_item := it;
                       iv_variant := productVariants db !! variantId it;
                       iv_product := products db !! productId it |}) items)
    tot acc = Ok (Some r) ->
  Forall (fun item => exists variant,
            productVariants db !! variantId item = Some variant /\
            quantity item <= stock variant) items.
Proof.
  induction items as [|item rest IH]; intros tot acc r H; simpl in H; [constructor|].
  destruct (productVariants db !! variantId item) as [variant|] eqn:Hv; [|done].
  destruct (Z.ltb_spec (stock variant) (quantity item)); [done|].
  destruct (products db !! productId item); [|done].
  constructor; [by exists variant | by eapply IH].
Qed.

Lemma readPhase_checked session now db p :
  readPhase session now db = Ok (Some p) ->
  Forall (fun item => exists variant,
            productVariants db !! variantId item = Some variant /\
            quantity item <= stock variant) (itemsOfCart (metadata_cartId session) db).
Proof.
  unfold readPhase, shoppingCart_findUnique, itemsOfCart. intros H.
  destruct (shoppingCarts db !! metadata_cartId session); [|done].
  destruct (collectLineItems _ _ _) as [[r|]|] eqn:Hc; try done.
  by eapply collectLineItems_checked.
Qed.

Lemma purchased_absent items v :
  v ∉ variantId <$> items -> purchased items v = 0.
Proof.
  induction items as [|item rest IH]; simpl; [done|]. intros Hnot.
  apply not_elem_of_cons in Hnot as [Hne Hrest].
  destruct (Z.eqb_spec (variantId item) v); [congruence|]. by rewrite IH.
Qed.

Lemma purchased_within_stock (db : DB) items v variant :
  NoDup (variantId <$> items) ->
  Forall (fun item => exists variant,
            productVariants db !! variantId item = Some variant /\
            quantity item <= stock variant) items ->
  productVariants db !! v = Some variant ->
  0 <= stock variant ->
  purchased items v <= stock variant.
Proof.
  induction items as [|item rest IH]; simpl; intros Hnd Hall Hv Hpos; [done|].
  apply NoDup_cons in Hnd as [Hnot Hnd]. apply Forall_cons in Hall as [(w & Hw & Hq) Hall].
  destruct (Z.eqb_spec (variantId item) v) as [Heq|Hne].
  - rewrite purchased_absent by (by rewrite <- Heq). rewrite Heq in Hw.
    assert (w = variant) as -> by congruence. lia.
  - specialize (IH Hnd Hall Hv Hpos). lia.
Qed.

(** Deliveries that do not overlap keep the stock from going negative,
    the cart holding each variant once as the unique index on
    (cart, variant) has it. *)
Lemma serial_settlement_keeps_stock session now db :
  NoDup (variantId <$> itemsOfCart (metadata_cartId session) db) ->
  (forall v variant, productVariants db !! v = Some variant -> 0 <= stock variant) ->
  forall v variant,
    productVariants (snd (handleCheckoutSessionCompleted session now db)) !! v = Some variant ->
    0 <= stock variant.
Proof.
  intros Hnd Hpos v variant.
  destruct (handler_cases session now db) as [(Hsame & _)|(p & o & Hr & Hw)].
  - rewrite Hsame. apply Hpos.
  - destruct (readPhase_plan _ _ _ _ Hr) as (_ & Hi & _).
    destruct (writePhase_ok _ _ _ _ Hw) as (u & _ & _ & Hvars & _).
    rewrite Hvars, decrementAll_lookup, Hi.
    destruct (productVariants db !! v) as [w|] eqn:Hw0; simpl; [|done].
    injection 1 as <-. simpl.
    pose proof (purchased_within_stock db _ v w Hnd (readPhase_checked _ _ _ _ Hr) Hw0
                  (Hpos v w Hw0)).
    lia.
Qed.
(** The same two requests one after the other: the second is refused. *)
Lemma serial_settlements_refuse :
  let requests := [(paidByAna, 1000); (paidByRui, 1001)] in
  let st := run requests [Reads 0%nat; Commits 0%nat; Reads 1%nat; Commits 1%nat] lastPair in
  stock <$> productVariants (store st) !! 10 = Some 0 /\
  settled st = [0%nat] /\
  length (orders (store st)) = 1%nat.
Proof. vm_compute. repeat split. Qed.

(** C6, as stated, fails: the unit price of a settled line item is not
    the cart item's [itemPrice] snapshot.  The cart item was added at
    9.00, the variant costs 10.00 at settlement, and the line item is
    priced 10.00. *)
Lemma line_item_not_cart_snapshot :
  exists o li,
    orders (snd (handleCheckoutSessionCompleted paid 1000 shop)) = orders shop ++ [o] /\
    lineItems o = [li] /\
    itemsOfCart (metadata_cartId paid) shop = [item1] /\
    ~ FrozenFromCartSnapshot shop item1 li.
Proof.
  exists order1, line1. repeat split.
  intros (Hprice & _). vm_compute in Hprice. discriminate.
Qed.

(** C6, amended.  Every order created by a delivery has one line item
    per item of the session's cart, in order; each carries the variant's
    price as read at settlement as its unit price, that price times the
    purchased quantity as its line total, the quantity, the product and
    variant ids, the product name, the variant title and the sku. *)
Theorem line_items_frozen_from_variant session now db o :
  orders (snd (handleCheckoutSessionCompleted session now db)) = orders db ++ [o] ->
  Forall2 (FrozenFromVariant db) (itemsOfCart (metadata_cartId session) db) (lineItems o).
Proof.
  intros H. destruct (handler_new_order _ _ _ _ H) as (p & Hr & Hw).
  destruct (readPhase_plan _ _ _ _ Hr) as (_ & Hi & _ & Hall & _).
  destruct (writePhase_ok _ _ _ _ Hw) as (u & _ & -> & _).
  simpl. by rewrite <- Hi.
Qed.

Lemma line_items_frozen_from_variant_witness :
  orders (snd (handleCheckoutSessionCompleted paid 1000 shop)) = orders shop ++ [order1] /\
  Forall2 (FrozenFromVariant shop) (itemsOfCart (metadata_cartId paid) shop) (lineItems order1).
Proof.
  split; [reflexivity|].
  exact (line_items_frozen_from_variant paid 1000 shop order1 eq_refl).
Defined.

(** C9.  Every order created by a delivery has [taxAmount = 0],
    [shippingAmount = 0], and [subtotal] equal to [totalAmount] equal to
    the sum of the line totals of its line items. *)
Theorem settlement_order_totals session now db o :
  orders (snd (handleCheckoutSessionCompleted session now db)) = orders db ++ [o] ->
  taxAmount o = 0 /\
  shippingAmount o = 0 /\
  subtotal o = totalAmount o /\
  totalAmount o = sumTotals (lineItems o).
Proof.
  intros H. destruct (handler_new_order _ _ _ _ H) as (p & Hr & Hw).
  destruct (readPhase_plan _ _ _ _ Hr) as (_ & _ & _ & _ & Htot).
  destruct (writePhase_ok _ _ _ _ Hw) as (u & _ & -> & _).
  simpl. by repeat split.
Qed.

Lemma settlement_order_totals_witness :
  orders (snd (handleCheckoutSessionCompleted paid 1000 shop)) = orders shop ++ [order1] /\
  taxAmount order1 = 0 /\ shippingAmount order1 = 0 /\
  subtotal order1 = totalAmount order1 /\ totalAmount order1 = sumTotals (lineItems order1).
Proof.
  split; [reflexivity|].
  exact (settlement_order_totals paid 1000 shop order1 eq_refl).
Defined.

End PaymentFacts.

(* ================================================================== *)
(** ** Facts about binary64 arithmetic *)
(* ================================================================== *)

(** The operations of [PrimFloat] are specified by [SpecFloat]; what
    follows draws from that specification the one property the totals
    need: a product, a sum or a quotient of numbers of ordinary size is
    off by [2^-53] of its exact value at most. *)

Module Binary64Facts.
Import Binary64.





(** *** Shifting right with a round and a sticky bit *)








(** *** Shifting left *)


















End Binary64Facts.

(* ================================================================== *)
(** ** Facts about [calculateTotalPrice] *)
(* ================================================================== *)

Module TotalFacts.
Import Cart Binary64 Binary64Facts.














End TotalFacts.

(* ================================================================== *)
(** ** Facts about the cart and the direct checkout *)
(* ================================================================== *)

Module CartFacts.
Import Cart.

Lemma rollback_same db : rollback db db = db.
Proof. by destruct db. Qed.

Lemma find_updateWhere {A} (p q : A -> bool) (f : A -> A) (l : list A) :
  (forall x, p (f x) = p x) ->
  find p (updateWhere q f l) = (fun x => if q x then f x else x) <$> find p l.
Proof.
  intros Hp. induction l as [|x l IH]; simpl; [done|].
  destruct (q x) eqn:Hq; rewrite ?Hp; destruct (p x); simpl; rewrite ?Hq; done.
Qed.

Lemma find_some_holds {A} (p : A -> bool) (l : list A) (x : A) :
  find p l = Some x -> p x = true.
Proof. intros H. by apply find_some in H as [_ ?]. Qed.

Lemma find_snoc_none {A} (p : A -> bool) (l : list A) (x : A) :
  find p l = None -> find p (l ++ [x]) = if p x then Some x else None.
Proof.
  induction l as [|y l IH]; simpl; [done|]. destruct (p y); [done|]. exact IH.
Qed.

Lemma find_snoc_some {A} (p : A -> bool) (l : list A) (x y : A) :
  find p l = Some y -> find p (l ++ [x]) = Some y.
Proof.
  induction l as [|z l IH]; simpl; [done|]. destruct (p z); [done|]. exact IH.
Qed.

(** The closing recomputation writes [calculateTotalPrice] of the cart's
    rows, as the column rounds it, into the cart and touches nothing
    else. *)
Lemma recalculateTotal_ok cid db db' :
  recalculateTotal cid db = (Ok tt, db') ->
  exists cents,
    toDecimal10_2 (calculateTotalPrice (itemsOfCart cid db)) = Some cents /\
    db' = set_carts (updateWhere (fun c => c_id c =? cid) (withTotalPrice cents)) db.
Proof.
  unfold recalculateTotal, cart_updateTotalPrice, cart_update.
  destruct (toDecimal10_2 _) as [cents|]; [|done].
  destruct (cart_findUnique cid db); [|done].
  injection 1 as <-. by exists cents.
Qed.


Lemma recalculated_active uid db c t :
  cart_findActive uid db = Some c ->
  exists c',
    cart_findActive uid (set_carts (updateWhere (fun x => c_id x =? c_id c) (withTotalPrice t)) db)
      = Some c' /\
    c_id c' = c_id c /\ totalPrice c' = t.
Proof.
  intros Hc. unfold cart_findActive in *. simpl.
  rewrite find_updateWhere by done. rewrite Hc. simpl.
  rewrite Z.eqb_refl. eexists. split; [done|]. done.
Qed.

(** The first statement of [POST /items] and of [GET /]: when it returns,
    the user has an ACTIVE cart; no other table has moved either way. *)
Lemma ensure_cart uid db r db0 :
  match cart_findActive uid db with
  | Some c => (Ok c, db)
  | None => cart_create uid db
  end = (r, db0) ->
  cartItems db0 = cartItems db /\
  productVariants db0 = productVariants db /\
  products db0 = products db /\
  users db0 = users db /\
  match r with
  | Ok cart => cart_findActive uid db0 = Some cart
  | Throw _ => cart_findActive uid db = None /\ carts db0 = carts db
  end.
Proof.
  destruct (cart_findActive uid db) as [c|] eqn:Hc.
  - by injection 1 as <- <-.
  - unfold cart_create.
    destruct (existsRow _ (carts db)); [by injection 1 as <- <-|].
    destruct (negb _); [by injection 1 as <- <-|].
    injection 1 as <- <-. simpl. repeat split.
    unfold cart_findActive in *. simpl. rewrite (find_snoc_none _ _ _ Hc).
    unfold isActiveCartOf. simpl. by rewrite Z.eqb_refl.
Qed.

(** Closes the branches in which the route answers with an error:
    [Hrun] is the equation of the route's result, [Hs] says it succeeded. *)
Ltac refused Hrun Hs :=
  simpl in Hrun;
  repeat match type of Hrun with
         | context [if ?b then _ else _] => destruct b
         end;
  injection Hrun as <- <-; simpl in Hs; discriminate Hs.

(** What a successful [POST /items] has done, statement by statement. *)
Lemma addItem_ok uid pid vid qty db r db' :
  addItem uid pid vid qty db = (r, db') ->
  succeeded r = true ->
  exists cart db0 variant db1 cents,
    match cart_findActive uid db with
    | Some c => (Ok c, db)
    | None => cart_create uid db
    end = (Ok cart, db0) /\
    cart_findActive uid db0 = Some cart /\
    cartItems db0 = cartItems db /\
    productVariants db !! vid = Some variant /\
    carts db1 = carts db0 /\
    productVariants db1 = productVariants db /\
    match find (matches (c_id cart) pid vid) (cartItems db) with
    | Some it =>
        status r = 200 /\
        cartItems db1 =
          updateWhere (fun x => ci_id x =? ci_id it)
                      (withQuantityAndPrice (quantity it + qty) (price variant)) (cartItems db)
    | None =>
        status r = 201 /\
        pid ∈ products db /\
        cartItems db1 =
          cartItems db ++ [{| ci_id := cartItemSeq db0 + 1; cartId := c_id cart; productId := pid;
                              variantId := vid; quantity := qty; itemPrice := price variant |}]
    end /\
    toDecimal10_2 (calculateTotalPrice (itemsOfCart (c_id cart) db1)) = Some cents /\
    db' = set_carts (updateWhere (fun c => c_id c =? c_id cart) (withTotalPrice cents)) db1.
Proof.
  intros Hrun Hs. unfold addItem, validateRequest in Hrun.
  destruct (cartItemAddSchema pid vid qty); [|refused Hrun Hs].
  unfold addItem_try in Hrun. unfold bind at 1 in Hrun.
  destruct (match cart_findActive uid db with
            | Some c => (Ok c, db)
            | None => cart_create uid db
            end) as [[cart|e] db0] eqn:Hens; [|refused Hrun Hs].
  destruct (ensure_cart _ _ _ _ Hens) as (Hitems & Hvars & Hprods & _ & Hact).
  rewrite Hitems, Hvars in Hrun.
  destruct (productVariants db !! vid) as [variant|] eqn:Hv; [|refused Hrun Hs].
  fold (matches (c_id cart) pid vid) in Hrun.
  destruct (find (matches (c_id cart) pid vid) (cartItems db)) as [it|] eqn:Hfind.
  - unfold bind at 1 in Hrun. unfold bind at 1 in Hrun. unfold cartItem_update in Hrun.
    destruct (cartItem_findUnique (ci_id it) db0) as [it'|]; [|refused Hrun Hs].
    destruct (fitsInt32 _); [|refused Hrun Hs].
    simpl in Hrun. unfold ret at 1 in Hrun. unfold bind at 1 in Hrun.
    destruct (recalculateTotal _ _) as [[[]|e] db2] eqn:Hrec; [|refused Hrun Hs].
    apply recalculateTotal_ok in Hrec as (cents & Hcents & ->).
    unfold ret in Hrun. injection Hrun as <- <-.
    exists cart, db0, variant,
      (set_cartItems (updateWhere (fun x => ci_id x =? ci_id it)
                        (withQuantityAndPrice (quantity it + qty) (price variant))) db0), cents.
    rewrite Hfind. repeat split; try done. simpl. by rewrite Hitems.
  - unfold bind at 1 in Hrun. unfold bind at 1 in Hrun. unfold cartItem_create in Hrun.
    destruct (negb (existsRow _ (carts db0))); [refused Hrun Hs|].
    destruct (negb (bool_decide (pid ∈ products db0))) eqn:Hpid; [refused Hrun Hs|].
    destruct (negb (bool_decide (is_Some (productVariants db0 !! vid)))); [refused Hrun Hs|].
    destruct (existsRow _ (cartItems db0)); [refused Hrun Hs|].
    destruct (negb (fitsInt32 qty)); [refused Hrun Hs|].
    simpl in Hrun. unfold ret at 1 in Hrun. unfold bind at 1 in Hrun.
    destruct (recalculateTotal _ _) as [[[]|e] db2] eqn:Hrec; [|refused Hrun Hs].
    apply recalculateTotal_ok in Hrec as (cents & Hcents & ->).
    unfold ret in Hrun. injection Hrun as <- <-.
    exists cart, db0, variant,
      (set_cartItems (fun l => l ++ [{| ci_id := cartItemSeq db0 + 1; cartId := c_id cart;
                                        productId := pid; variantId := vid; quantity := qty;
                                        itemPrice := price variant |}])
                     (set_seqs (cartSeq db0) (cartItemSeq db0 + 1) (orderSeq db0) db0)), cents.
    rewrite Hfind. repeat split; try done.
    + rewrite Hprods in Hpid. by apply negb_false_iff, bool_decide_eq_true in Hpid.
    + simpl. by rewrite Hitems.
Qed.

(** What a successful [PUT /items/:itemId] has done. *)
Lemma updateItemQuantity_ok uid itemId newQty db r db' :
  updateItemQuantity uid itemId newQty db = (r, db') ->
  succeeded r = true ->
  exists item cart cents,
    cartItem_findUnique itemId db = Some item /\
    cart_findUnique (cartId item) db = Some cart /\
    notOwnedActive uid cart = false /\
    status r = 200 /\
    let db1 := set_cartItems (updateWhere (fun x => ci_id x =? itemId) (withQuantity newQty)) db in
    toDecimal10_2 (calculateTotalPrice (itemsOfCart (cartId item) db1)) = Some cents /\
    db' = set_carts (updateWhere (fun c => c_id c =? cartId item) (withTotalPrice cents)) db1.
Proof.
  intros Hrun Hs. unfold updateItemQuantity, validateRequest in Hrun.
  destruct (cartItemUpdateSchema newQty); [|refused Hrun Hs].
  unfold updateItemQuantity_try in Hrun.
  destruct (cartItem_findUnique itemId db) as [item|] eqn:Hitem; [|refused Hrun Hs].
  destruct (cart_findUnique (cartId item) db) as [cart|] eqn:Hcart; [|refused Hrun Hs].
  destruct (notOwnedActive uid cart) eqn:Hown; [refused Hrun Hs|].
  unfold bind at 1 in Hrun. unfold cartItem_update in Hrun. rewrite Hitem in Hrun.
  destruct (negb (fitsInt32 _)); [refused Hrun Hs|].
  unfold bind at 1 in Hrun.
  destruct (recalculateTotal _ _) as [[[]|e] db2] eqn:Hrec; [|refused Hrun Hs].
  apply recalculateTotal_ok in Hrec as (cents & Hcents & ->).
  unfold ret in Hrun. injection Hrun as <- <-.
  by exists item, cart, cents.
Qed.

(** What a successful [DELETE /items/:itemId] has done. *)
Lemma removeItem_ok uid itemId db r db' :
  removeItem uid itemId db = (r, db') ->
  succeeded r = true ->
  exists item cart cents,
    cartItem_findUnique itemId db = Some item /\
    cart_findUnique (cartId item) db = Some cart /\
    notOwnedActive uid cart = false /\
    status r = 204 /\
    let db1 := set_cartItems (filter (fun x => ci_id x ≠ itemId)) db in
    toDecimal10_2 (calculateTotalPrice (itemsOfCart (cartId item) db1)) = Some cents /\
    db' = set_carts (updateWhere (fun c => c_id c =? cartId item) (withTotalPrice cents)) db1.
Proof.
  intros Hrun Hs. unfold removeItem, removeItem_try in Hrun.
  destruct (cartItem_findUnique itemId db) as [item|] eqn:Hitem; [|refused Hrun Hs].
  destruct (cart_findUnique (cartId item) db) as [cart|] eqn:Hcart; [|refused Hrun Hs].
  destruct (notOwnedActive uid cart) eqn:Hown; [refused Hrun Hs|].
  unfold bind at 1 in Hrun. unfold cartItem_delete in Hrun. rewrite Hitem in Hrun.
  unfold bind at 1 in Hrun.
  destruct (recalculateTotal _ _) as [[[]|e] db2] eqn:Hrec; [|refused Hrun Hs].
  apply recalculateTotal_ok in Hrec as (cents & Hcents & ->).
  unfold ret in Hrun. injection Hrun as <- <-.
  by exists item, cart, cents.
Qed.






Lemma updateWhere_rows {A} (p : A -> bool) (f : A -> A) (l : list A) :
  Forall2 (fun old new => new = if p old then f old else old) l (updateWhere p f l).
Proof. induction l as [|x l IH]; simpl; by constructor. Qed.

(** C7 (the code departs from the claim).  Variant 10 belongs to product
    1; [addItem] for product 2 with variant 10 answers 201 and creates the
    cart item.  Only an absent variant is answered with 404. *)
Theorem addItem_accepts_variant_of_other_product :
  let result := addItem 7 2 10 1 dimeShop in
  pv_productId <$> productVariants dimeShop !! 10 = Some 1 /\
  status (fst result) = 201 /\
  cartItems (snd result) =
    [ {| ci_id := 1; cartId := 3; productId := 2; variantId := 10; quantity := 1; itemPrice := 10 |} ].
Proof. vm_compute. by repeat split. Qed.



(** C10.  A successful updateItemQuantity keeps every cart item row with
    its id, cart, product, variant and [itemPrice], and sets the quantity
    of the addressed row only.  A successful addItem on an item already in
    the cart keeps the rows' identities too, but gives the addressed row
    the old quantity plus the added one and the variant's current price as
    its [itemPrice]. *)
Theorem updateItemQuantity_changes_quantity_only uid itemId newQty pid vid qty db :
  (status (fst (updateItemQuantity uid itemId newQty db)) = 200 ->
   Forall2 (fun old new =>
              sameButQuantity old new /\
              quantity new = if ci_id old =? itemId then newQty else quantity old)
           (cartItems db) (cartItems (snd (updateItemQuantity uid itemId newQty db)))) /\
  (status (fst (addItem uid pid vid qty db)) = 200 ->
   exists it variant,
     productVariants db !! vid = Some variant /\
     In it (cartItems db) /\ productId it = pid /\ variantId it = vid /\
     Forall2 (fun old new =>
                sameIdentity old new /\
                if ci_id old =? ci_id it
                then quantity new = quantity it + qty /\ itemPrice new = price variant
                else quantity new = quantity old /\ itemPrice new = itemPrice old)
             (cartItems db) (cartItems (snd (addItem uid pid vid qty db)))).
Proof.
  split; intros Hst.
  - destruct (updateItemQuantity uid itemId newQty db) as [r db'] eqn:Hrun. simpl in *.
    assert (Hs : succeeded r = true) by (unfold succeeded; by rewrite Hst).
    destruct (updateItemQuantity_ok _ _ _ _ _ _ Hrun Hs)
      as (item & cart & cents & _ & _ & _ & _ & _ & ->).
    simpl. eapply Forall2_impl; [apply updateWhere_rows|].
    intros old new ->. simpl. unfold sameButQuantity. by destruct (ci_id old =? itemId).
  - destruct (addItem uid pid vid qty db) as [r db'] eqn:Hrun. simpl in *.
    assert (Hs : succeeded r = true) by (unfold succeeded; by rewrite Hst).
    destruct (addItem_ok _ _ _ _ _ _ _ Hrun Hs)
      as (cart & db0 & variant & db1 & cents & _ & _ & _ & Hv & _ & _ & Hcase & _ & ->).
    destruct (find _ (cartItems db)) as [it|] eqn:Hfind.
    + destruct Hcase as [_ Hitems]. apply find_some in Hfind as [Hin Hmatch].
      unfold matches in Hmatch.
      apply andb_true_iff in Hmatch as [Hmatch Hvid].
      apply andb_true_iff in Hmatch as [_ Hpid].
      exists it, variant. repeat split; [done|done|lia|lia|].
      simpl. rewrite Hitems. eapply Forall2_impl; [apply updateWhere_rows|].
      intros old new ->. unfold sameIdentity. by destruct (ci_id old =? ci_id it).
    + destruct Hcase as [H201 _]. congruence.
Qed.

Lemma updateItemQuantity_changes_quantity_only_witness :
  Forall2 (fun old new =>
             sameButQuantity old new /\
             quantity new = if ci_id old =? 1 then 5 else quantity old)
          (cartItems repriced) (cartItems (snd (updateItemQuantity 7 1 5 repriced))) /\
  itemPrice <$> cartItems (snd (updateItemQuantity 7 1 5 repriced)) = [10] /\
  itemPrice <$> cartItems (snd (addItem 7 1 10 1 repriced)) = [12].
Proof.
  split; [|split; reflexivity].
  apply (proj1 (updateItemQuantity_changes_quantity_only 7 1 5 1 10 1 repriced)).
  reflexivity.
Defined.

End CartFacts.

(* ================================================================== *)
(** ** More facts about the webhook *)
(* ================================================================== *)

Module SettlementFacts.
Import Payment PaymentFacts PaymentSession.

(** The webhook writes to the store for one kind of request only: an
    event with a valid signature and type "checkout.session.completed".
    A bad signature is answered 400, any other event 200, and the store
    is left as it was. *)
Theorem webhook_writes_only_for_completed constructEvent body sig now db :
  (forall event, constructEvent body sig = Ok event ->
                 type event <> "checkout.session.completed") ->
  snd (handleStripeWebhook constructEvent body sig now db) = db /\
  res_status (fst (handleStripeWebhook constructEvent body sig now db)) =
    match constructEvent body sig with Ok _ => 200 | Throw _ => 400 end.
Proof.
  intros Hother. unfold handleStripeWebhook, dispatch.
  destruct (constructEvent body sig) as [event|e] eqn:Hev; [|done].
  specialize (Hother event eq_refl).
  destruct (String.eqb_spec (type event) "checkout.session.completed"); [done|].
  by destruct (String.eqb (type event) "checkout.session.expired").
Qed.

Lemma webhook_writes_only_for_completed_witness :
  snd (handleStripeWebhook rejectAll "{}" "t=1,v1=00" 1000 shop) = shop /\
  res_status (fst (handleStripeWebhook rejectAll "{}" "t=1,v1=00" 1000 shop)) = 400.
Proof.
  apply (webhook_writes_only_for_completed rejectAll "{}" "t=1,v1=00" 1000 shop).
  intros event H. discriminate H.
Defined.

Lemma readPhase_cart session now db p :
  readPhase session now db = Ok (Some p) ->
  is_Some (shoppingCarts db !! metadata_cartId session) /\
  itemsOfCart (metadata_cartId session) db <> [].
Proof.
  unfold readPhase, shoppingCart_findUnique, itemsOfCart. intros H.
  destruct (shoppingCarts db !! metadata_cartId session); [|done].
  split; [done|]. intros Hnil. rewrite Hnil in H. done.
Qed.

(** A delivery that changes anything in the store was for a cart that
    exists, holds at least one item, and whose every item was covered by
    the stock of its variant when the handler read it. *)
Theorem settlement_needs_stocked_cart session now db :
  snd (handleCheckoutSessionCompleted session now db) <> db ->
  is_Some (shoppingCarts db !! metadata_cartId session) /\
  itemsOfCart (metadata_cartId session) db <> [] /\
  Forall (fun item => exists variant,
            productVariants db !! variantId item = Some variant /\
            quantity item <= stock variant)
         (itemsOfCart (metadata_cartId session) db).
Proof.
  intros Hchanged.
  destruct (readPhase session now db) as [[p|]|e] eqn:Hr.
  - destruct (readPhase_cart _ _ _ _ Hr). split; [done|]. split; [done|].
    by eapply readPhase_checked.
  - exfalso. apply Hchanged.
    unfold handleCheckoutSessionCompleted, settlementBody. by rewrite Hr.
  - exfalso. apply Hchanged.
    unfold handleCheckoutSessionCompleted, settlementBody. by rewrite Hr.
Qed.

Lemma settlement_needs_stocked_cart_witness :
  is_Some (shoppingCarts shop !! metadata_cartId paid) /\
  itemsOfCart (metadata_cartId paid) shop <> [] /\
  Forall (fun item => exists variant,
            productVariants shop !! variantId item = Some variant /\
            quantity item <= stock variant)
         (itemsOfCart (metadata_cartId paid) shop).
Proof.
  apply (settlement_needs_stocked_cart paid 1000 shop).
  intros H. apply (f_equal orders) in H. vm_compute in H. discriminate H.
Defined.

(** The tables a committing transaction body does not write. *)
Lemma writePhase_frame p db o db' :
  writePhase p db = (Ok o, db') ->
  users db' = users db /\ products db' = products db /\ shoppingCarts db' = shoppingCarts db.
Proof.
  unfold writePhase. intros H. unfold bind at 1 in H.
  destruct (forEach _ (pl_items p) db) as [[[]|e] db1] eqn:Hfe; [|done].
  apply forEach_decrement in Hfe. subst db1.
  unfold bind at 1 in H. destruct (pl_user p) as [u|]; [|done].
  unfold ret at 1 in H. unfold bind at 1 in H.
  unfold order_create in H. simpl in H.
  split_ifs H; try done.
  unfold bind at 1 in H. unfold orderTransaction_create in H. simpl in H.
  split_ifs H; try done.
  unfold bind at 1 in H. unfold shoppingCart_clearItems in H. simpl in H.
  split_ifs H; try done.
  unfold ret in H. by injection H as <- <-.
Qed.

Lemma other_cart_items (cid c : Z) (l : list CartItem) :
  c <> cid ->
  filter (fun it => cartId it = c) (filter (fun it => cartId it ≠ cid) l) =
  filter (fun it => cartId it = c) l.
Proof.
  intros Hne. induction l as [|x l IH]; [done|].
  rewrite !filter_cons. destruct (decide (cartId x ≠ cid)) as [Hx|Hx].
  - rewrite filter_cons. destruct (decide (cartId x = c)); by rewrite IH.
  - destruct (decide (cartId x = c)); [|done]. exfalso. apply Hx. congruence.
Qed.

(** Whatever a delivery does, it leaves users, products and cart rows
    alone, does not touch the items of any other cart, and changes
    nothing of a variant but its stock. *)
Theorem settlement_frame session now db :
  let db' := snd (handleCheckoutSessionCompleted session now db) in
  users db' = users db /\
  products db' = products db /\
  shoppingCarts db' = shoppingCarts db /\
  (forall c, c <> metadata_cartId session -> itemsOfCart c db' = itemsOfCart c db) /\
  (forall v, variantIdentity <$> productVariants db' !! v = variantIdentity <$> productVariants db !! v).
Proof.
  intros db'. subst db'.
  unfold handleCheckoutSessionCompleted, settlementBody.
  destruct (readPhase session now db) as [[p|]|e] eqn:Hr; simpl; try done.
  unfold transaction.
  destruct (writePhase p db) as [[o|e] db1] eqn:Hw; simpl; [|done].
  destruct (readPhase_plan _ _ _ _ Hr) as (Hs & _).
  destruct (writePhase_frame _ _ _ _ Hw) as (Hu & Hp & Hc).
  destruct (writePhase_ok _ _ _ _ Hw) as (u & _ & _ & Hv & _ & _ & Hci & _).
  rewrite Hs in Hci. repeat split; try done.
  - intros c Hne. unfold itemsOfCart. rewrite Hci. by apply other_cart_items.
  - intros v. rewrite Hv, decrementAll_lookup.
    by destruct (productVariants db !! v).
Qed.

Lemma serial_settlement_keeps_stock_witness :
  productVariants (snd (handleCheckoutSessionCompleted paidByAna 1000 lastPair)) !! 10
    = Some {| pv_productId := 1; price := 1000; sku := "SKU-10"; stock := 0; title := "42" |} /\
  0 <= stock {| pv_productId := 1; price := 1000; sku := "SKU-10"; stock := 0; title := "42" |}.
Proof.
  assert (Hsold : productVariants (snd (handleCheckoutSessionCompleted paidByAna 1000 lastPair)) !! 10
                  = Some {| pv_productId := 1; price := 1000; sku := "SKU-10";
                            stock := 0; title := "42" |})
    by (vm_compute; reflexivity).
  split; [exact Hsold|].
  apply (serial_settlement_keeps_stock paidByAna 1000 lastPair) with (v := 10);
    [| | exact Hsold].
  - vm_compute. apply NoDup_singleton.
  - intros v variant H. unfold lastPair in H. cbn [productVariants] in H.
    apply lookup_singleton_Some in H as [_ <-]. simpl. lia.
Defined.

(** Once a transaction row carries a session's payment identifier, a
    delivery of that session changes no order, transaction, stock or
    cart item, whatever the cart holds by then. *)
Theorem recorded_payment_never_settles_again session now db :
  (exists t, In t (orderTransactions db) /\ stripeId t = payment_intent session) ->
  sameRows db (snd (handleCheckoutSessionCompleted session now db)).
Proof.
  intros (t & Hin & Hid). apply recorded_payment_noop.
  apply existsb_exists. exists t. split; [done|]. by apply String.eqb_eq.
Qed.

Lemma recorded_payment_never_settles_again_witness :
  itemsOfCart 3 refilled <> [] /\
  sameRows refilled (snd (handleCheckoutSessionCompleted paid 2000 refilled)).
Proof.
  split; [vm_compute; discriminate|].
  apply (recorded_payment_never_settles_again paid 2000 refilled).
  eexists. split; [left; reflexivity|reflexivity].
Defined.

End SettlementFacts.

(* ================================================================== *)
(** ** Facts about the checkout session route *)
(* ================================================================== *)

Module SessionFacts.
Import Payment PaymentFacts PaymentSession.

Section WithGateway.
Variable sessions_create : SessionParams -> Result CheckoutSession.

Ltac walk H :=
  repeat match type of H with
         | context [match ?x with _ => _ end] => destruct x eqn:?
         end.

(** A checkout-session request answered 400 or 404 has sent nothing to
    the gateway and returns no session. *)
Theorem refused_checkout_sends_nothing userId cartId db sent :
  let result := createCheckoutSession sessions_create userId cartId db sent in
  sr_status (fst result) = 400 \/ sr_status (fst result) = 404 ->
  snd result = sent /\ sr_session (fst result) = None.
Proof.
  intros result Hst. subst result.
  destruct (createCheckoutSession sessions_create userId cartId db sent) as [r sent'] eqn:Hrun.
  simpl in *. unfold createCheckoutSession in Hrun.
  walk Hrun; injection Hrun as <- <-; simpl in Hst; try done; destruct Hst; done.
Qed.


Lemma findUnique_views cid db cart :
  shoppingCarts db !! cid = Some cart ->
  shoppingCart_findUnique cid db = Some (view db <$> itemsOfCart cid db).
Proof. intros H. unfold shoppingCart_findUnique. by rewrite H. Qed.

Lemma stockPrecheck_ok db items :
  stockPrecheck (view db <$> items) = Ok None -> Forall (InStock db) items.
Proof.
  induction items as [|item rest IH]; simpl; intros H; [constructor|].
  destruct (productVariants db !! variantId item) as [variant|] eqn:Hv; [|done].
  destruct (Z.ltb_spec (stock variant) (quantity item)).
  - by destruct (products db !! productId item).
  - constructor; [by exists variant | by apply IH].
Qed.

Lemma stockPrecheck_short db pre item post variant product :
  Forall (InStock db) pre ->
  productVariants db !! variantId item = Some variant ->
  products db !! productId item = Some product ->
  stock variant < quantity item ->
  stockPrecheck (view db <$> pre ++ item :: post) =
    Ok (Some ("Stock insuficiente para " +:+ name product +:+ " (" +:+ title variant +:+ ").")).
Proof.
  intros Hpre Hv Hp Hshort. induction Hpre as [|x pre (w & Hw & Hq) _ IH]; simpl.
  - rewrite Hv, Hp. by destruct (Z.ltb_spec (stock variant) (quantity item)); [|lia].
  - rewrite Hw. destruct (Z.ltb_spec (stock w) (quantity x)); [lia|]. exact IH.
Qed.

Lemma stripeLineItems_ok db items : forall lines,
  stripeLineItems (view db <$> items) = Ok lines -> Forall2 (LineOf db) items lines.
Proof.
  induction items as [|item rest IH]; simpl; intros lines H.
  - injection H as <-. constructor.
  - destruct (products db !! productId item) as [product|] eqn:Hp; [|done].
    destruct (productVariants db !! variantId item) as [variant|] eqn:Hv; [|done].
    destruct (stripeLineItems _) as [more|]; [|done]. injection H as <-.
    constructor; [|by apply IH]. by exists variant, product.
Qed.

Lemma collectLineItems_accepts db items : forall lines tot acc,
  Forall (InStock db) items ->
  Forall2 (LineOf db) items lines ->
  exists r, collectLineItems (view db <$> items) tot acc = Ok (Some r).
Proof.
  induction items as [|item rest IH]; intros lines tot acc Hstock Hlines; simpl.
  - by eexists.
  - apply Forall_cons in Hstock as [(variant & Hv & Hq) Hstock].
    inversion Hlines as [|? li ? more (w & product & _ & Hp & _) Hmore]; subst.
    rewrite Hv, Hp. destruct (Z.ltb_spec (stock variant) (quantity item)); [lia|].
    by eapply IH.
Qed.

(** The pre-flight stock check stops at the first item of the caller's
    cart whose variant has less stock than the item's quantity: the
    answer is 400, the message names that item's product and variant, and
    nothing is sent to the gateway. *)
Theorem short_stock_is_named userId cid db sent cart pre item post variant product :
  cid <> 0 ->
  shoppingCarts db !! cid = Some cart ->
  sc_userId cart = userId ->
  itemsOfCart cid db = pre ++ item :: post ->
  Forall (InStock db) pre ->
  productVariants db !! variantId item = Some variant ->
  products db !! productId item = Some product ->
  stock variant < quantity item ->
  createCheckoutSession sessions_create userId (Some cid) db sent =
    (refuse 400 ("Stock insuficiente para " +:+ name product +:+ " (" +:+ title variant +:+ ")."),
     sent).
Proof.
  intros Hcid Hcart Hown Hitems Hpre Hv Hp Hshort. unfold createCheckoutSession.
  apply Z.eqb_neq in Hcid. rewrite Hcid, Hcart, (findUnique_views _ _ _ Hcart), Hitems.
  rewrite Hown, Z.eqb_refl. simpl negb. cbv iota.
  rewrite length_fmap, length_app. simpl length.
  replace (length pre + S (length post) =? 0)%nat with false
    by (symmetry; apply Nat.eqb_neq; lia).
  by rewrite (stockPrecheck_short db pre item post variant product).
Qed.

(** What an accepted request has read and sent. *)
Lemma createCheckoutSession_ok userId cartId db sent :
  let result := createCheckoutSession sessions_create userId cartId db sent in
  sr_status (fst result) = 200 ->
  exists cid cart user params,
    cartId = Some cid /\
    shoppingCarts db !! cid = Some cart /\ sc_userId cart = userId /\
    users db !! userId = Some user /\
    itemsOfCart cid db <> [] /\
    Forall (InStock db) (itemsOfCart cid db) /\
    Forall2 (LineOf db) (itemsOfCart cid db) (sp_line_items params) /\
    sp_customer_email params = email user /\
    sp_userId params = userId /\ sp_cartId params = cid /\
    snd result = sent ++ [params] /\
    sr_session (fst result) = match sessions_create params with Ok s => Some s | Throw _ => None end.
Proof.
  intros result Hst. subst result.
  destruct (createCheckoutSession sessions_create userId cartId db sent) as [r sent'] eqn:Hrun.
  simpl in *. unfold createCheckoutSession in Hrun.
  destruct cartId as [cid|]; [|by injection Hrun as <- <-].
  destruct (cid =? 0); [by injection Hrun as <- <-|].
  destruct (shoppingCarts db !! cid) as [cart|] eqn:Hcart; [|by injection Hrun as <- <-].
  rewrite (findUnique_views _ _ _ Hcart) in Hrun.
  destruct (Z.eqb_spec (sc_userId cart) userId) as [Hown|]; [|by injection Hrun as <- <-].
  simpl negb in Hrun. cbv iota in Hrun. rewrite length_fmap in Hrun.
  destruct (itemsOfCart cid db) as [|i l] eqn:Hitems; [by injection Hrun as <- <-|].
  rewrite <- Hitems in *. replace (length (itemsOfCart cid db) =? 0)%nat with false in Hrun
    by (rewrite Hitems; done).
  destruct (stockPrecheck _) as [[msg|]|e] eqn:Hpre; try by injection Hrun as <- <-.
  apply stockPrecheck_ok in Hpre.
  destruct (stripeLineItems _) as [lines|e] eqn:Hlines; [|by injection Hrun as <- <-].
  apply stripeLineItems_ok in Hlines.
  destruct (users db !! userId) as [user|] eqn:Hu; [|by injection Hrun as <- <-].
  destruct (sessions_create _) as [s|e] eqn:Hcreate; injection Hrun as <- <-; [|done].
  eexists cid, cart, user, _. repeat split; try done.
  - rewrite Hitems. done.
  - simpl. by rewrite Hcreate.
Qed.

(** A checkout-session request answered 200 was for a non-empty cart of
    the caller with every item in stock; exactly one request went to the
    gateway, with one line per cart item in order (product name, variant
    title, unit amount, quantity), the caller's e-mail, and the caller's
    id and the cart's id as metadata. *)
Theorem created_session_params userId cartId db sent :
  let result := createCheckoutSession sessions_create userId cartId db sent in
  sr_status (fst result) = 200 ->
  exists cid cart user params,
    cartId = Some cid /\
    shoppingCarts db !! cid = Some cart /\ sc_userId cart = userId /\
    users db !! userId = Some user /\
    itemsOfCart cid db <> [] /\
    Forall (InStock db) (itemsOfCart cid db) /\
    Forall2 (LineOf db) (itemsOfCart cid db) (sp_line_items params) /\
    sp_customer_email params = email user /\
    sp_userId params = userId /\ sp_cartId params = cid /\
    snd result = sent ++ [params] /\
    sr_session (fst result) = match sessions_create params with Ok s => Some s | Throw _ => None end.
Proof. apply createCheckoutSession_ok. Qed.

(** The pre-flight check and the webhook's final check agree: on the
    store on which a session was created, the webhook's reads accept the
    session's cart. *)
Theorem created_session_passes_final_check userId cartId db sent session now :
  sr_status (fst (createCheckoutSession sessions_create userId cartId db sent)) = 200 ->
  metadata_userId session = userId ->
  Some (metadata_cartId session) = cartId ->
  exists p, readPhase session now db = Ok (Some p).
Proof.
  intros Hst Huid Hcid.
  destruct (createCheckoutSession_ok userId cartId db sent Hst)
    as (cid & cart & user & params & -> & Hcart & _ & _ & Hne & Hstock & Hlines & _).
  injection Hcid as Hcid. unfold readPhase.
  rewrite Hcid, (findUnique_views _ _ _ Hcart).
  destruct (collectLineItems_accepts db _ _ (JsNumber 0) [] Hstock Hlines) as ([tot lines] & Hc).
  rewrite Hc.
  destruct (collectLineItems_ok db _ _ _ _ _ Hc) as (new & _ & _ & Hdec & _).
  rewrite (Hdec Hne). simpl. by eexists.
Qed.

End WithGateway.

Lemma centsRecovered_iter (n : N) :
  let r := N.iter n (fun '(c, ok) => (c + 1, ok && (unit_amount c =? c))) (0, true) in
  fst r = Z.of_N n /\
  (snd r = true -> forall c, 0 <= c < Z.of_N n -> unit_amount c = c).
Proof.
  induction n as [|n IH] using N.peano_ind.
  - simpl. split; [done|]. intros _ c Hc. lia.
  - rewrite N.iter_succ.
    destruct (N.iter n _ _) as [k ok] eqn:Hiter. simpl in IH. destruct IH as [-> IH].
    simpl. split; [lia|]. intros Hok c Hc.
    apply andb_true_iff in Hok as [Hok Hlast].
    destruct (Z.eq_dec c (Z.of_N n)) as [->|Hne]; [by apply Z.eqb_eq|].
    apply IH; [done|lia].
Qed.

(** For every price below 1000.00, [Math.round(price.toNumber() * 100)]
    is the price's exact number of cents: the detour through binary64
    loses nothing. *)
Theorem unit_amount_is_the_price_in_cents (cents : Z) :
  0 <= cents < 100000 -> unit_amount cents = cents.
Proof.
  intros H.
  apply (proj2 (centsRecovered_iter 100000)); [|exact H].
  vm_compute. reflexivity.
Qed.

Lemma unit_amount_is_the_price_in_cents_witness : unit_amount 1999 = 1999.
Proof. apply unit_amount_is_the_price_in_cents. lia. Defined.

Lemma refused_checkout_sends_nothing_witness :
  snd (createCheckoutSession alwaysCreates 8 (Some 3) shop []) = [] /\
  sr_session (fst (createCheckoutSession alwaysCreates 8 (Some 3) shop [])) = None.
Proof.
  apply (refused_checkout_sends_nothing alwaysCreates 8 (Some 3) shop []).
  right. reflexivity.
Defined.

Lemma short_stock_is_named_witness :
  createCheckoutSession alwaysCreates 7 (Some 3) thinShop [] =
    (refuse 400 "Stock insuficiente para Shoe (42).", []).
Proof.
  apply (short_stock_is_named alwaysCreates 7 3 thinShop [] {| sc_userId := 7 |}
           [] item1 [] (decStock 4 shoe42) {| name := "Shoe" |});
    try reflexivity; try done.
Defined.

Lemma created_session_params_witness :
  exists cid cart user params,
    Some 3 = Some cid /\
    shoppingCarts shop !! cid = Some cart /\ sc_userId cart = 7 /\
    users shop !! 7 = Some user /\
    itemsOfCart cid shop <> [] /\
    Forall (InStock shop) (itemsOfCart cid shop) /\
    Forall2 (LineOf shop) (itemsOfCart cid shop) (sp_line_items params) /\
    sp_customer_email params = email user /\
    sp_userId params = 7 /\ sp_cartId params = cid /\
    snd (createCheckoutSession alwaysCreates 7 (Some 3) shop []) = [] ++ [params] /\
    sr_session (fst (createCheckoutSession alwaysCreates 7 (Some 3) shop [])) =
      match alwaysCreates params with Ok s => Some s | Throw _ => None end.
Proof.
  apply (created_session_params alwaysCreates 7 (Some 3) shop []). reflexivity.
Defined.

Lemma created_session_passes_final_check_witness :
  exists p, readPhase paid 1000 shop = Ok (Some p).
Proof.
  apply (created_session_passes_final_check alwaysCreates 7 (Some 3) shop [] paid 1000);
    reflexivity.
Defined.

End SessionFacts.

(* ================================================================== *)
(** ** More facts about the cart and order routes *)
(* ================================================================== *)

Module CartRouteFacts.
Import Cart CartFacts.

Lemma length_updateWhere {A} (p : A -> bool) (f : A -> A) (l : list A) :
  length (updateWhere p f l) = length l.
Proof. unfold updateWhere. apply length_map. Qed.

(** What [GET /api/cart] leaves behind, whatever it answers. *)
Lemma getCart_cases uid db :
  let r := fst (getCart uid db) in
  let db' := snd (getCart uid db) in
  cartItems db' = cartItems db /\ users db' = users db /\
  match cart_findActive uid db with
  | None =>
      if canOpenCart uid db
      then cv_status r = 201 /\
           exists c, carts db' = carts db ++ [c] /\ isActiveCartOf uid c = true /\
                     cv_cart r = Some c /\ cv_items r = []
      else cv_status r = 500 /\ carts db' = carts db
  | Some c =>
      (cv_status r = 500 /\ db' = db) \/
      (cv_status r = 200 /\
       exists cents,
         toDecimal10_2 (calculateTotalPrice (itemsOfCart (c_id c) db)) = Some cents /\
         db' = set_carts (updateWhere (fun x => c_id x =? c_id c) (withTotalPrice cents)) db /\
         cv_cart r = cart_findUnique (c_id c) db' /\
         cv_items r = itemsOfCart (c_id c) db)
  end.
Proof.
  unfold getCart, getCart_try.
  destruct (cart_findActive uid db) as [c|] eqn:Hc.
  - unfold bind, cart_updateTotalPrice, cart_update.
    destruct (toDecimal10_2 _) as [cents|]; simpl; [|repeat split; by left].
    destruct (cart_findUnique (c_id c) db); simpl; [|repeat split; by left].
    split; [done|]. split; [done|]. right. split; [done|]. by exists cents.
  - unfold bind, cart_create, canOpenCart.
    destruct (existsRow _ (carts db)); simpl; [done|].
    destruct (bool_decide (uid ∈ users db)); simpl; [|done].
    split; [done|]. split; [done|]. split; [done|]. eexists. split; [done|].
    split; [|done]. unfold isActiveCartOf. simpl. by rewrite Z.eqb_refl.
Qed.

(** [GET /api/cart] is get-or-create.  Unless the first call fails with
    500, the user has an ACTIVE cart after it; in every case a second
    call creates none, and neither call touches a cart item. *)
Theorem getCart_creates_at_most_once uid db :
  let db1 := snd (getCart uid db) in
  let db2 := snd (getCart uid db1) in
  (cv_status (fst (getCart uid db)) <> 500 -> is_Some (cart_findActive uid db1)) /\
  cv_status (fst (getCart uid db1)) <> 201 /\
  length (carts db2) = length (carts db1) /\
  cartItems db2 = cartItems db.
Proof.
  intros db1 db2.
  destruct (getCart_cases uid db) as (Hitems & Husers & H). fold db1 in Hitems, Husers, H.
  destruct (getCart_cases uid db1) as (Hitems2 & _ & H2). fold db2 in Hitems2, H2.
  assert (Hcases : is_Some (cart_findActive uid db1) \/
                   (cv_status (fst (getCart uid db)) = 500 /\
                    cart_findActive uid db1 = None /\ canOpenCart uid db1 = false)).
  { destruct (cart_findActive uid db) as [c|] eqn:Hc.
    - left. destruct H as [[_ ->]|(_ & cents & _ & -> & _)]; [by rewrite Hc|].
      destruct (recalculated_active uid db c cents Hc) as (c' & -> & _). done.
    - destruct (canOpenCart uid db) eqn:Hopen.
      + left. destruct H as (_ & c & Hcarts & Hactive & _).
        unfold cart_findActive in *. rewrite Hcarts, (find_snoc_none _ _ _ Hc), Hactive. done.
      + right. destruct H as [H500 Hcarts]. split; [done|].
        unfold cart_findActive, canOpenCart in *. rewrite Hcarts, Husers. done. }
  split.
  { intros Hno. destruct Hcases as [Hact|[H500 _]]; [exact Hact|done]. }
  destruct Hcases as [[c Hc]|(_ & Hnone & Hopen)].
  - rewrite Hc in H2. destruct H2 as [[-> ->]|(-> & cents & _ & -> & _)].
    + split; [done|]. split; [done|]. exact Hitems.
    + split; [done|]. simpl. rewrite length_updateWhere. split; [done|].
      simpl in Hitems2. congruence.
  - rewrite Hnone, Hopen in H2. destruct H2 as [-> Hcarts].
    split; [done|]. split; [by rewrite Hcarts|]. congruence.
Qed.

Lemma find_by_key {A} (key : A -> Z) (l : list A) (x : A) :
  NoDup (key <$> l) -> In x l -> find (fun y => key y =? key x) l = Some x.
Proof.
  induction l as [|y l IH]; simpl; intros Hnd Hin; [done|].
  apply NoDup_cons in Hnd as [Hnot Hnd].
  destruct Hin as [->|Hin]; [by rewrite Z.eqb_refl|].
  destruct (Z.eqb_spec (key y) (key x)) as [Heq|]; [|by apply IH].
  exfalso. apply Hnot. rewrite Heq. apply list_elem_of_fmap. exists x.
  split; [done|]. by apply list_elem_of_In.
Qed.

(** Cart ids being unique, a [GET /api/cart] answered 200 returns the
    caller's ACTIVE cart as the store now holds it, with its items; the
    total of that row is [calculateTotalPrice] of the items returned, as
    the column rounds it. *)
Theorem getCart_reports_recomputed_total uid db :
  NoDup (c_id <$> carts db) ->
  cv_status (fst (getCart uid db)) = 200 ->
  exists c,
    cv_cart (fst (getCart uid db)) = Some c /\
    cart_findUnique (c_id c) (snd (getCart uid db)) = Some c /\
    isActiveCartOf uid c = true /\
    cv_items (fst (getCart uid db)) = itemsOfCart (c_id c) db /\
    toDecimal10_2 (calculateTotalPrice (cv_items (fst (getCart uid db)))) = Some (totalPrice c).
Proof.
  intros Hnd Hst. destruct (getCart_cases uid db) as (_ & _ & H).
  destruct (cart_findActive uid db) as [c|] eqn:Hc.
  - destruct H as [[H500 _]|(_ & cents & Hcents & Hdb & Hcart & Hitems)]; [congruence|].
    rewrite Hcart, Hitems, Hdb. unfold cart_findUnique. simpl.
    rewrite find_updateWhere by done.
    apply find_some in Hc as [Hin Hactive].
    rewrite (find_by_key c_id _ _ Hnd Hin). simpl. rewrite Z.eqb_refl.
    exists (withTotalPrice cents c). split; [done|]. simpl.
    rewrite find_updateWhere by done.
    rewrite (find_by_key c_id _ _ Hnd Hin). simpl. rewrite Z.eqb_refl.
    by repeat split.
  - destruct (canOpenCart uid db); destruct H as [Hother _]; congruence.
Qed.


(** The recomputation cannot miss a cart that was found a statement
    earlier: nothing removes cart rows. *)
Lemma recalculateTotal_result cid db c :
  cart_findUnique cid db = Some c ->
  recalculateTotal cid db =
    match toDecimal10_2 (calculateTotalPrice (itemsOfCart cid db)) with
    | None => (Throw (PrismaError "P2020"), db)
    | Some cents =>
        (Ok tt, set_carts (updateWhere (fun x => c_id x =? cid) (withTotalPrice cents)) db)
    end.
Proof.
  intros Hc. unfold recalculateTotal, cart_updateTotalPrice, cart_update.
  destruct (toDecimal10_2 _); [|done]. by rewrite Hc.
Qed.

(** An item of a cart that belongs to someone else, or that is no longer
    ACTIVE, can be neither changed nor removed: DELETE answers 403, PUT
    with a valid quantity answers 403, and neither changes the store. *)
Theorem foreign_cart_item_is_protected uid itemId newQty db item cart :
  cartItem_findUnique itemId db = Some item ->
  cart_findUnique (cartId item) db = Some cart ->
  userId cart <> uid \/ cartStatus cart <> "ACTIVE" ->
  status (fst (removeItem uid itemId db)) = 403 /\
  snd (removeItem uid itemId db) = db /\
  (cartItemUpdateSchema newQty = true ->
   status (fst (updateItemQuantity uid itemId newQty db)) = 403) /\
  snd (updateItemQuantity uid itemId newQty db) = db.
Proof.
  intros Hitem Hcart Hforeign.
  assert (Hno : notOwnedActive uid cart = true).
  { unfold notOwnedActive. destruct Hforeign as [Hu|Hs].
    - apply Z.eqb_neq in Hu. by rewrite Hu.
    - apply String.eqb_neq in Hs. rewrite Hs. apply orb_true_r. }
  unfold removeItem, removeItem_try, updateItemQuantity, validateRequest,
    updateItemQuantity_try.
  rewrite Hitem, Hcart, Hno. simpl.
  split; [done|]. split; [done|].
  destruct (cartItemUpdateSchema newQty); simpl; by split.
Qed.

(** Closes a branch of a route whose result is known: either the store
    is the one it started from, or the status is one that was excluded. *)
Ltac answered Hrun :=
  simpl in Hrun;
  repeat match type of Hrun with
         | context [if ?b then _ else _] => destruct b
         end;
  injection Hrun as <- <-; simpl in *; solve [reflexivity | congruence].

(** PUT and DELETE on a cart item write nothing unless they succeed or
    answer 500: every 400, 403 and 404 leaves the store as it was. *)
Theorem cart_item_refusals_change_nothing uid itemId newQty db :
  (status (fst (updateItemQuantity uid itemId newQty db)) <> 200 ->
   status (fst (updateItemQuantity uid itemId newQty db)) <> 500 ->
   snd (updateItemQuantity uid itemId newQty db) = db) /\
  (status (fst (removeItem uid itemId db)) <> 204 ->
   status (fst (removeItem uid itemId db)) <> 500 ->
   snd (removeItem uid itemId db) = db).
Proof.
  split.
  - destruct (updateItemQuantity uid itemId newQty db) as [r db'] eqn:Hrun. simpl.
    intros H200 H500. unfold updateItemQuantity, validateRequest in Hrun.
    destruct (cartItemUpdateSchema newQty); [|answered Hrun].
    unfold updateItemQuantity_try in Hrun.
    destruct (cartItem_findUnique itemId db) as [item|] eqn:Hitem; [|answered Hrun].
    destruct (cart_findUnique (cartId item) db) as [cart|] eqn:Hcart; [|answered Hrun].
    destruct (notOwnedActive uid cart); [answered Hrun|].
    unfold bind at 1 in Hrun. unfold cartItem_update in Hrun. rewrite Hitem in Hrun.
    destruct (negb (fitsInt32 _)); [answered Hrun|].
    unfold bind at 1 in Hrun.
    rewrite (recalculateTotal_result (cartId item) _ cart) in Hrun by done.
    destruct (toDecimal10_2 _); answered Hrun.
  - destruct (removeItem uid itemId db) as [r db'] eqn:Hrun. simpl.
    intros H204 H500. unfold removeItem, removeItem_try in Hrun.
    destruct (cartItem_findUnique itemId db) as [item|] eqn:Hitem; [|answered Hrun].
    destruct (cart_findUnique (cartId item) db) as [cart|] eqn:Hcart; [|answered Hrun].
    destruct (notOwnedActive uid cart); [answered Hrun|].
    unfold bind at 1 in Hrun. unfold cartItem_delete in Hrun. rewrite Hitem in Hrun.
    unfold bind at 1 in Hrun.
    rewrite (recalculateTotal_result (cartId item) _ cart) in Hrun by done.
    destruct (toDecimal10_2 _); answered Hrun.
Qed.

Lemma find_filtered_out (id : Z) (l : list CartItem) :
  find (fun it => ci_id it =? id) (filter (fun x => ci_id x ≠ id) l) = None.
Proof.
  induction l as [|x l IH]; [done|]. rewrite filter_cons.
  destruct (decide (ci_id x ≠ id)) as [Hne|]; [|done].
  simpl. by apply Z.eqb_neq in Hne as ->.
Qed.

(** A successful DELETE removes the rows with that id and no other; the
    same DELETE again is answered 404 and changes nothing. *)
Theorem removeItem_twice uid itemId db :
  status (fst (removeItem uid itemId db)) = 204 ->
  let db1 := snd (removeItem uid itemId db) in
  cartItems db1 = filter (fun x => ci_id x ≠ itemId) (cartItems db) /\
  status (fst (removeItem uid itemId db1)) = 404 /\
  snd (removeItem uid itemId db1) = db1.
Proof.
  intros Hst db1.
  destruct (removeItem uid itemId db) as [r db'] eqn:Hrun. simpl in *. subst db1.
  assert (Hs : succeeded r = true) by (unfold succeeded; by rewrite Hst).
  destruct (removeItem_ok _ _ _ _ _ Hrun Hs) as (item & cart & cents & _ & _ & _ & _ & _ & ->).
  simpl. split; [done|].
  unfold removeItem, removeItem_try, cartItem_findUnique. simpl.
  by rewrite find_filtered_out.
Qed.


Lemma recalculated_active_row uid db db1 c t :
  cart_findActive uid db = Some c ->
  carts db1 = carts db ->
  cart_findActive uid (set_carts (updateWhere (fun x => c_id x =? c_id c) (withTotalPrice t)) db1)
    = Some (withTotalPrice t c).
Proof.
  intros Hc Hcarts. unfold cart_findActive in *. simpl. rewrite Hcarts.
  rewrite find_updateWhere by done. rewrite Hc. simpl. by rewrite Z.eqb_refl.
Qed.

(** Adding a variant that was not in the cart and then adding it again
    leaves one more row than before, whose quantity is the sum of the two
    and whose price snapshot is the variant's price. *)
Theorem addItem_again_accumulates uid pid vid q1 q2 db :
  let db1 := snd (addItem uid pid vid q1 db) in
  let db2 := snd (addItem uid pid vid q2 db1) in
  status (fst (addItem uid pid vid q1 db)) = 201 ->
  status (fst (addItem uid pid vid q2 db1)) = 200 ->
  exists cart variant row,
    cart_findActive uid db2 = Some cart /\
    productVariants db !! vid = Some variant /\
    find (matches (c_id cart) pid vid) (cartItems db2) = Some row /\
    quantity row = q1 + q2 /\
    itemPrice row = price variant /\
    length (cartItems db2) = S (length (cartItems db)).
Proof.
  intros db1 db2 H1 H2. subst db1 db2.
  destruct (addItem uid pid vid q1 db) as [r1 db1] eqn:Hrun1. simpl in *.
  destruct (addItem uid pid vid q2 db1) as [r2 db2] eqn:Hrun2. simpl in *.
  assert (Hs1 : succeeded r1 = true) by (unfold succeeded; by rewrite H1).
  assert (Hs2 : succeeded r2 = true) by (unfold succeeded; by rewrite H2).
  destruct (addItem_ok _ _ _ _ _ _ _ Hrun1 Hs1)
    as (cart & db0 & variant & db1' & cents1 & _ & Hact & _ & Hv & Hcarts & Hvars & Hcase & _ & Hdb1).
  destruct (find (matches (c_id cart) pid vid) (cartItems db)) as [it|] eqn:Hfind;
    [destruct Hcase; congruence|].
  destruct Hcase as (_ & _ & Hitems1).
  pose proof (recalculated_active_row uid db0 db1' cart cents1 Hact Hcarts) as Hact1.
  rewrite <- Hdb1 in Hact1.
  destruct (addItem_ok _ _ _ _ _ _ _ Hrun2 Hs2)
    as (cart2 & db02 & variant2 & db2' & cents2 & Hens2 & Hact2 & _ & Hv2 & Hcarts2 & _ & Hcase2 & _ & Hdb2).
  rewrite Hact1 in Hens2. injection Hens2 as <- <-.
  assert (Hvars1 : productVariants db1 = productVariants db) by (by rewrite Hdb1).
  rewrite Hvars1, Hv in Hv2. injection Hv2 as <-.
  simpl c_id in *.
  assert (Hitems : cartItems db1 = cartItems db1') by (by rewrite Hdb1).
  rewrite Hitems, Hitems1 in Hcase2.
  set (row := {| ci_id := cartItemSeq db0 + 1; cartId := c_id cart; productId := pid;
                 variantId := vid; quantity := q1; itemPrice := price variant |}) in *.
  assert (Hrow : matches (c_id cart) pid vid row = true)
    by (unfold matches; simpl; by rewrite !Z.eqb_refl).
  rewrite (find_snoc_none _ _ _ Hfind), Hrow in Hcase2.
  destruct Hcase2 as [_ Hitems2].
  exists (withTotalPrice cents2 (withTotalPrice cents1 cart)),
         variant, (withQuantityAndPrice (q1 + q2) (price variant) row).
  split.
  { rewrite Hdb2.
    exact (recalculated_active_row uid db1 db2' _ _ Hact1 Hcarts2). }
  split; [done|].
  assert (Hitems3 : cartItems db2 = cartItems db2') by (by rewrite Hdb2).
  rewrite Hitems3, Hitems2. simpl c_id. split.
  { rewrite find_updateWhere by done.
    rewrite (find_snoc_none _ _ _ Hfind), Hrow. simpl. by rewrite Z.eqb_refl. }
  split; [done|]. split; [done|].
  rewrite length_updateWhere, length_app. simpl. lia.
Qed.



Lemma find_in_by_id (l : list CartRow) (c : CartRow) :
  In c l -> is_Some (find (fun x => c_id x =? c_id c) l).
Proof.
  induction l as [|y l IH]; simpl; [done|]. intros [->|Hin].
  - by rewrite Z.eqb_refl.
  - destruct (c_id y =? c_id c); [done|]. by apply IH.
Qed.

(** What a committed [POST /api/orders] has done. *)
Lemma checkout_ok uid address method note now db r db' :
  checkout uid address method note now db = (r, db') ->
  status r = 201 ->
  exists cart cents,
    cart_findActive uid db = Some cart /\
    itemsOfCart (c_id cart) db <> [] /\
    toDecimal10_2 (calculateTotalPrice (itemsOfCart (c_id cart) db)) = Some cents /\
    let order := {| o_id := orderSeq db + 1; o_userId := uid; orderStatus := "PENDING";
                    o_totalPrice := cents;
                    shippingAddress := address; paymentMethod := method; notes := note |} in
    db' = {| users := users db;
             products := products db; productVariants := productVariants db;
             carts := updateWhere (fun c => c_id c =? c_id cart) (completed now (o_id order))
                                  (carts db);
             cartItems := filter (fun it => cartId it ≠ c_id cart) (cartItems db);
             orders := orders db ++ [order];
             orderItems := orderItems db ++
               map (fun item => {| oi_orderId := o_id order; oi_productId := productId item;
                                   oi_variantId := variantId item; oi_quantity := quantity item;
                                   priceAtPurchase := itemPrice item |})
                   (itemsOfCart (c_id cart) db);
             cartSeq := cartSeq db; cartItemSeq := cartItemSeq db; orderSeq := orderSeq db + 1 |}.
Proof.
  intros Hrun Hst. unfold checkout, validateRequest in Hrun.
  destruct (orderCreateSchema address method note);
    [|injection Hrun as <- <-; simpl in Hst; congruence].
  unfold transaction, checkout_tx in Hrun.
  destruct (cart_findActive uid db) as [cart|] eqn:Hc;
    [|simpl in Hrun; injection Hrun as <- <-; simpl in Hst; congruence].
  destruct (itemsOfCart (c_id cart) db) as [|i l] eqn:Hitems;
    [simpl in Hrun; injection Hrun as <- <-; simpl in Hst; congruence|].
  rewrite <- Hitems in *. replace (length (itemsOfCart (c_id cart) db) =? 0)%nat with false in Hrun
    by (by rewrite Hitems).
  unfold bind at 1 in Hrun. unfold order_create in Hrun.
  destruct (toDecimal10_2 _) as [cents|] eqn:Hcents;
    [|simpl in Hrun; injection Hrun as <- <-; simpl in Hst; congruence].
  destruct (negb (bool_decide (uid ∈ users db)));
    [simpl in Hrun; injection Hrun as <- <-; simpl in Hst; congruence|].
  unfold bind at 1 in Hrun. unfold orderItem_createMany in Hrun.
  unfold bind at 1 in Hrun. unfold cart_update in Hrun. unfold cart_findUnique in Hrun.
  simpl in Hrun.
  apply find_some in Hc as Hin. destruct Hin as [Hin _].
  destruct (find_in_by_id _ _ Hin) as [c' Hc']. rewrite Hc' in Hrun.
  unfold bind in Hrun. unfold cartItem_deleteMany, ret in Hrun. simpl in Hrun.
  injection Hrun as <- <-.
  exists cart, cents. split; [done|]. split; [by rewrite Hitems|]. done.
Qed.

Lemma cleared_cart_items (cid : Z) (l : list CartItem) :
  filter (fun it => cartId it = cid) (filter (fun it => cartId it ≠ cid) l) = [].
Proof.
  induction l as [|x l IH]; [done|]. rewrite filter_cons.
  destruct (decide (cartId x ≠ cid)) as [Hne|]; [|done].
  rewrite filter_cons. by destruct (decide (cartId x = cid)).
Qed.

Lemma other_cart_items_kept (cid c : Z) (l : list CartItem) :
  c <> cid ->
  filter (fun it => cartId it = c) (filter (fun it => cartId it ≠ cid) l) =
  filter (fun it => cartId it = c) l.
Proof.
  intros Hne. induction l as [|x l IH]; [done|].
  rewrite !filter_cons. destruct (decide (cartId x ≠ cid)) as [Hx|Hx].
  - rewrite filter_cons. destruct (decide (cartId x = c)); by rewrite IH.
  - destruct (decide (cartId x = c)); [|done]. exfalso. apply Hx. congruence.
Qed.

Lemma copied_items (order : Order) (l : list CartItem) :
  Forall2 (CopiedFrom order) l
    (map (fun item => {| oi_orderId := o_id order; oi_productId := productId item;
                         oi_variantId := variantId item; oi_quantity := quantity item;
                         priceAtPurchase := itemPrice item |}) l).
Proof. induction l as [|x l IH]; simpl; constructor; done. Qed.

(** A direct checkout answered 201 appends one PENDING order of the
    caller whose total is [calculateTotalPrice] of the cart's items as the
    column rounds it, and one order item per cart item, copying product,
    variant, quantity and the [itemPrice] snapshot; it empties that cart
    and no other, marks it COMPLETED with the time and the order's id, and
    leaves the catalogue untouched. *)
Theorem checkout_converts_cart uid address method note now db :
  status (fst (checkout uid address method note now db)) = 201 ->
  let db' := snd (checkout uid address method note now db) in
  exists cart order newItems,
    cart_findActive uid db = Some cart /\
    orders db' = orders db ++ [order] /\
    o_userId order = uid /\ orderStatus order = "PENDING" /\
    toDecimal10_2 (calculateTotalPrice (itemsOfCart (c_id cart) db)) = Some (o_totalPrice order) /\
    orderItems db' = orderItems db ++ newItems /\
    Forall2 (CopiedFrom order) (itemsOfCart (c_id cart) db) newItems /\
    itemsOfCart (c_id cart) db' = [] /\
    (forall c, c <> c_id cart -> itemsOfCart c db' = itemsOfCart c db) /\
    (exists row, cart_findUnique (c_id cart) db' = Some row /\
                 cartStatus row = "COMPLETED" /\ completedAt row = Some now /\
                 c_orderId row = Some (o_id order)) /\
    productVariants db' = productVariants db /\ products db' = products db.
Proof.
  intros Hst db'. subst db'.
  destruct (checkout uid address method note now db) as [r db'] eqn:Hrun. simpl in *.
  destruct (checkout_ok _ _ _ _ _ _ _ _ Hrun Hst) as (cart & cents & Hc & Hne & Hcents & ->).
  eexists cart, _, _. simpl. repeat split; try done.
  - apply copied_items.
  - apply cleared_cart_items.
  - intros c Hc'. unfold itemsOfCart. simpl. by apply other_cart_items_kept.
  - unfold cart_findUnique. simpl. rewrite find_updateWhere by done.
    apply find_some in Hc as [Hin _]. destruct (find_in_by_id _ _ Hin) as [c' Hc'].
    rewrite Hc'. simpl. apply find_some_holds in Hc'. rewrite Hc'.
    eexists. split; [done|]. done.
Qed.


Lemma find_none_after_update {A} (p q : A -> bool) (f : A -> A) (l : list A) :
  (forall x, In x l -> p x = true -> q x = true) ->
  (forall x, p (f x) = false) ->
  find p (updateWhere q f l) = None.
Proof.
  intros Hq Hf. induction l as [|x l IH]; simpl; [done|].
  destruct (q x) eqn:Hqx.
  - rewrite Hf. apply IH. intros y Hy. apply Hq. by right.
  - destruct (p x) eqn:Hpx.
    + rewrite (Hq x) in Hqx; [done|by left|done].
    + apply IH. intros y Hy. apply Hq. by right.
Qed.

(** A user's ACTIVE carts sharing one id, a direct checkout answered 201
    leaves the user without an ACTIVE cart; any further checkout changes
    nothing, and is answered 400 when its body passes validation. *)
Theorem checkout_twice uid address method note now address2 method2 note2 now2 db :
  (forall c1 c2, In c1 (carts db) -> In c2 (carts db) ->
                 isActiveCartOf uid c1 = true -> isActiveCartOf uid c2 = true ->
                 c_id c1 = c_id c2) ->
  status (fst (checkout uid address method note now db)) = 201 ->
  let db1 := snd (checkout uid address method note now db) in
  cart_findActive uid db1 = None /\
  snd (checkout uid address2 method2 note2 now2 db1) = db1 /\
  (orderCreateSchema address2 method2 note2 = true ->
   status (fst (checkout uid address2 method2 note2 now2 db1)) = 400).
Proof.
  intros Hone Hst db1. subst db1.
  destruct (checkout uid address method note now db) as [r db1] eqn:Hrun. simpl in *.
  destruct (checkout_ok _ _ _ _ _ _ _ _ Hrun Hst) as (cart & cents & Hc & _ & _ & Hdb1).
  assert (Hnone : cart_findActive uid db1 = None).
  { rewrite Hdb1. unfold cart_findActive. simpl.
    apply find_some in Hc as [Hin Hact].
    apply find_none_after_update.
    - intros x Hx Hax. apply Z.eqb_eq. by apply Hone.
    - intros x. unfold isActiveCartOf. simpl. apply andb_false_r. }
  split; [exact Hnone|].
  unfold checkout, validateRequest.
  destruct (orderCreateSchema address2 method2 note2); [|done].
  unfold transaction, checkout_tx. rewrite Hnone. simpl. by rewrite rollback_same.
Qed.



Lemma getCart_creates_at_most_once_witness :
  is_Some (cart_findActive 9 (snd (getCart 9 dimeShop))).
Proof.
  apply (proj1 (getCart_creates_at_most_once 9 dimeShop)). vm_compute. discriminate.
Defined.

Lemma getCart_reports_recomputed_total_witness :
  exists c,
    cv_cart (fst (getCart 7 repriced)) = Some c /\
    cart_findUnique (c_id c) (snd (getCart 7 repriced)) = Some c /\
    isActiveCartOf 7 c = true /\
    cv_items (fst (getCart 7 repriced)) = itemsOfCart (c_id c) repriced /\
    toDecimal10_2 (calculateTotalPrice (cv_items (fst (getCart 7 repriced)))) = Some (totalPrice c).
Proof.
  apply (getCart_reports_recomputed_total 7 repriced); [|reflexivity].
  vm_compute. apply NoDup_singleton.
Defined.

Lemma foreign_cart_item_is_protected_witness :
  status (fst (removeItem 9 1 repriced)) = 403 /\
  snd (removeItem 9 1 repriced) = repriced /\
  status (fst (updateItemQuantity 9 1 50 repriced)) = 403 /\
  snd (updateItemQuantity 9 1 50 repriced) = repriced.
Proof.
  destruct (foreign_cart_item_is_protected 9 1 50 repriced _ _ eq_refl eq_refl)
    as (H1 & H2 & H3 & H4).
  - left. simpl. lia.
  - split; [exact H1|]. split; [exact H2|]. split; [apply H3; reflexivity|exact H4].
Defined.

Lemma cart_item_refusals_change_nothing_witness :
  snd (updateItemQuantity 7 99 2 repriced) = repriced /\
  snd (removeItem 7 99 repriced) = repriced.
Proof.
  split.
  - apply (proj1 (cart_item_refusals_change_nothing 7 99 2 repriced)); vm_compute; discriminate.
  - apply (proj2 (cart_item_refusals_change_nothing 7 99 2 repriced)); vm_compute; discriminate.
Defined.

Lemma removeItem_twice_witness :
  cartItems (snd (removeItem 7 1 repriced)) =
    filter (fun x => ci_id x ≠ 1) (cartItems repriced) /\
  status (fst (removeItem 7 1 (snd (removeItem 7 1 repriced)))) = 404 /\
  snd (removeItem 7 1 (snd (removeItem 7 1 repriced))) = snd (removeItem 7 1 repriced).
Proof. exact (removeItem_twice 7 1 repriced eq_refl). Defined.

Lemma addItem_again_accumulates_witness :
  exists cart variant row,
    cart_findActive 7 (snd (addItem 7 1 10 2 (snd (addItem 7 1 10 3 dimeShop)))) = Some cart /\
    productVariants dimeShop !! 10 = Some variant /\
    find (matches (c_id cart) 1 10)
         (cartItems (snd (addItem 7 1 10 2 (snd (addItem 7 1 10 3 dimeShop))))) = Some row /\
    quantity row = 3 + 2 /\
    itemPrice row = price variant /\
    length (cartItems (snd (addItem 7 1 10 2 (snd (addItem 7 1 10 3 dimeShop))))) =
      S (length (cartItems dimeShop)).
Proof. exact (addItem_again_accumulates 7 1 10 3 2 dimeShop eq_refl eq_refl). Defined.


Lemma checkout_converts_cart_witness :
  exists cart order newItems,
    cart_findActive 7 repriced = Some cart /\
    orders (snd (checkout 7 "Rua das Flores 12" "card" None 5000 repriced)) =
      orders repriced ++ [order] /\
    o_userId order = 7 /\ orderStatus order = "PENDING" /\
    toDecimal10_2 (calculateTotalPrice (itemsOfCart (c_id cart) repriced)) =
      Some (o_totalPrice order) /\
    orderItems (snd (checkout 7 "Rua das Flores 12" "card" None 5000 repriced)) =
      orderItems repriced ++ newItems /\
    Forall2 (CopiedFrom order) (itemsOfCart (c_id cart) repriced) newItems /\
    itemsOfCart (c_id cart) (snd (checkout 7 "Rua das Flores 12" "card" None 5000 repriced)) = [] /\
    (forall c, c <> c_id cart ->
               itemsOfCart c (snd (checkout 7 "Rua das Flores 12" "card" None 5000 repriced)) =
               itemsOfCart c repriced) /\
    (exists row,
        cart_findUnique (c_id cart)
          (snd (checkout 7 "Rua das Flores 12" "card" None 5000 repriced)) = Some row /\
        cartStatus row = "COMPLETED" /\ completedAt row = Some 5000 /\
        c_orderId row = Some (o_id order)) /\
    productVariants (snd (checkout 7 "Rua das Flores 12" "card" None 5000 repriced)) =
      productVariants repriced /\
    products (snd (checkout 7 "Rua das Flores 12" "card" None 5000 repriced)) = products repriced.
Proof.
  exact (checkout_converts_cart 7 "Rua das Flores 12" "card" None 5000 repriced eq_refl).
Defined.

Lemma checkout_twice_witness :
  cart_findActive 7 (snd (checkout 7 "Rua das Flores 12" "card" None 5000 repriced)) = None /\
  snd (checkout 7 "Rua das Flores 12" "card" None 6000
         (snd (checkout 7 "Rua das Flores 12" "card" None 5000 repriced))) =
    snd (checkout 7 "Rua das Flores 12" "card" None 5000 repriced) /\
  status (fst (checkout 7 "Rua das Flores 12" "card" None 6000
                 (snd (checkout 7 "Rua das Flores 12" "card" None 5000 repriced)))) = 400.
Proof.
  destruct (checkout_twice 7 "Rua das Flores 12" "card" None 5000
              "Rua das Flores 12" "card" None 6000 repriced) as (H1 & H2 & H3).
  - intros c1 c2 [<-|[]] [<-|[]] _ _. reflexivity.
  - reflexivity.
  - split; [exact H1|]. split; [exact H2|]. apply H3. reflexivity.
Defined.

End CartRouteFacts.

(* ================================================================== *)
(** ** Facts about the wishlist and the authorization gates *)
(* ================================================================== *)

Module WishlistFacts.
Import Wishlist.

(** What a created row looks like, and that nothing else moved. *)
Lemma addToWishlist_created uid pid vid db :
  fst (addToWishlist uid pid vid db) = 201 ->
  pid ∈ products db /\
  variantProduct db !! vid = Some pid /\
  wishlist_findUnique uid vid db = None /\
  snd (addToWishlist uid pid vid db) =
    {| products := products db; variantProduct := variantProduct db;
       wishlist := wishlist db ++ [{| w_id := wishlistSeq db + 1; w_userId := uid;
                                      w_productId := pid; w_variantId := vid |}];
       wishlistSeq := wishlistSeq db + 1 |}.
Proof.
  unfold addToWishlist, wishlist_create.
  destruct (bool_decide (pid ∈ products db)) eqn:Hp; simpl; [|done].
  destruct (variantProduct db !! vid) as [owner|] eqn:Hv; [|done].
  destruct (Z.eqb_spec owner pid) as [->|]; simpl; [|done].
  destruct (wishlist_findUnique uid vid db) eqn:Hw; [done|].
  destruct (existsb (sameKey uid vid) (wishlist db)); [done|].
  simpl. intros _. apply bool_decide_eq_true in Hp. done.
Qed.

Lemma addToWishlist_refused uid pid vid db :
  fst (addToWishlist uid pid vid db) <> 201 ->
  wishlist (snd (addToWishlist uid pid vid db)) = wishlist db /\
  variantProduct (snd (addToWishlist uid pid vid db)) = variantProduct db.
Proof.
  unfold addToWishlist, wishlist_create.
  destruct (bool_decide (pid ∈ products db)) eqn:Hp; simpl; [|done].
  destruct (variantProduct db !! vid) as [owner|] eqn:Hv; [|done].
  destruct (Z.eqb_spec owner pid) as [->|]; simpl; [|done].
  destruct (wishlist_findUnique uid vid db) eqn:Hw; [done|].
  destruct (existsb (sameKey uid vid) (wishlist db)); done.
Qed.

(** If every wishlist row pairs a variant with the product it belongs
    to, this is still so after [POST /api/wishlist], whatever it answers. *)
Theorem wishlist_stays_well_paired uid pid vid db :
  wellPaired db -> wellPaired (snd (addToWishlist uid pid vid db)).
Proof.
  intros Hwp. unfold wellPaired in *.
  destruct (Z.eq_dec (fst (addToWishlist uid pid vid db)) 201) as [H201|Hno].
  - destruct (addToWishlist_created _ _ _ _ H201) as (_ & Hv & _ & ->). simpl.
    apply Forall_app. split; [done|]. by constructor.
  - destruct (addToWishlist_refused _ _ _ _ Hno) as [-> ->]. done.
Qed.

Lemma wishlist_stays_well_paired_witness :
  wellPaired (snd (addToWishlist 7 1 10 catalogue)) /\
  fst (addToWishlist 7 1 10 catalogue) = 201 /\
  fst (addToWishlist 7 2 10 catalogue) = 404.
Proof.
  split; [|split; reflexivity].
  apply (wishlist_stays_well_paired 7 1 10 catalogue). constructor.
Defined.

(** After a successful add the variant is in the user's wishlist, the
    same add again is answered 409 and changes nothing, and exactly one
    row holds that user and variant. *)
Theorem wishlist_add_twice uid pid vid db :
  fst (addToWishlist uid pid vid db) = 201 ->
  let db1 := snd (addToWishlist uid pid vid db) in
  inWishlist uid vid db1 = 200 /\
  fst (addToWishlist uid pid vid db1) = 409 /\
  snd (addToWishlist uid pid vid db1) = db1 /\
  length (filter (fun w => sameKey uid vid w = true) (wishlist db1)) = 1%nat.
Proof.
  intros H201 db1. subst db1.
  destruct (addToWishlist_created _ _ _ _ H201) as (Hp & Hv & Hnone & ->).
  assert (Hkey : sameKey uid vid {| w_id := wishlistSeq db + 1; w_userId := uid;
                                    w_productId := pid; w_variantId := vid |} = true)
    by (unfold sameKey; simpl; by rewrite !Z.eqb_refl).
  assert (Hfound : wishlist_findUnique uid vid
            {| products := products db; variantProduct := variantProduct db;
               wishlist := wishlist db ++ [{| w_id := wishlistSeq db + 1; w_userId := uid;
                                              w_productId := pid; w_variantId := vid |}];
               wishlistSeq := wishlistSeq db + 1 |} =
            Some {| w_id := wishlistSeq db + 1; w_userId := uid;
                    w_productId := pid; w_variantId := vid |}).
  { unfold wishlist_findUnique in *. simpl.
    rewrite (CartFacts.find_snoc_none _ _ _ Hnone). by rewrite Hkey. }
  unfold inWishlist, addToWishlist. rewrite Hfound. simpl.
  rewrite (bool_decide_eq_true_2 _ Hp), Hv, Z.eqb_refl. simpl.
  repeat split.
  rewrite filter_app. rewrite length_app.
  assert (Hold : filter (fun w => sameKey uid vid w = true) (wishlist db) = []).
  { unfold wishlist_findUnique in Hnone. clear -Hnone.
    induction (wishlist db) as [|x l IH]; [done|]. simpl in Hnone.
    rewrite filter_cons. destruct (sameKey uid vid x) eqn:Hx; [done|].
    destruct (decide (false = true)); [done|]. by apply IH. }
  rewrite Hold. rewrite filter_cons. destruct (decide _) as [|Hno]; [done|].
  by rewrite Hkey in Hno.
Qed.

(** Adding a variant to the wishlist and removing it again gives back the
    wishlist rows as they were, and the variant is no longer found. *)
Theorem wishlist_add_then_remove uid pid vid db :
  fst (addToWishlist uid pid vid db) = 201 ->
  let db1 := snd (addToWishlist uid pid vid db) in
  fst (removeFromWishlist uid vid db1) = 204 /\
  wishlist (snd (removeFromWishlist uid vid db1)) = wishlist db /\
  inWishlist uid vid (snd (removeFromWishlist uid vid db1)) = 404.
Proof.
  intros H201 db1. subst db1.
  destruct (addToWishlist_created _ _ _ _ H201) as (Hp & Hv & Hnone & ->).
  assert (Hkey : sameKey uid vid {| w_id := wishlistSeq db + 1; w_userId := uid;
                                    w_productId := pid; w_variantId := vid |} = true)
    by (unfold sameKey; simpl; by rewrite !Z.eqb_refl).
  assert (Hkeep : filter (fun w => sameKey uid vid w = false) (wishlist db) = wishlist db).
  { unfold wishlist_findUnique in Hnone. clear -Hnone.
    induction (wishlist db) as [|x l IH]; [done|]. simpl in Hnone.
    rewrite filter_cons. destruct (sameKey uid vid x) eqn:Hx; [done|].
    destruct (decide (false = false)); [|done]. by rewrite IH. }
  unfold removeFromWishlist, wishlist_delete, inWishlist, wishlist_findUnique in *. simpl.
  rewrite (CartFacts.find_snoc_none _ _ _ Hnone), Hkey. simpl.
  rewrite filter_app, Hkeep, filter_cons.
  destruct (decide (sameKey uid vid _ = false)) as [Hno|_]; [by rewrite Hkey in Hno|].
  rewrite filter_nil, app_nil_r. by rewrite Hnone.
Qed.


Lemma wishlist_add_twice_witness :
  inWishlist 7 10 (snd (addToWishlist 7 1 10 catalogue)) = 200 /\
  fst (addToWishlist 7 1 10 (snd (addToWishlist 7 1 10 catalogue))) = 409 /\
  snd (addToWishlist 7 1 10 (snd (addToWishlist 7 1 10 catalogue))) =
    snd (addToWishlist 7 1 10 catalogue) /\
  length (filter (fun w => sameKey 7 10 w = true)
                 (wishlist (snd (addToWishlist 7 1 10 catalogue)))) = 1%nat.
Proof. exact (wishlist_add_twice 7 1 10 catalogue eq_refl). Defined.

Lemma wishlist_add_then_remove_witness :
  fst (removeFromWishlist 7 10 (snd (addToWishlist 7 1 10 catalogue))) = 204 /\
  wishlist (snd (removeFromWishlist 7 10 (snd (addToWishlist 7 1 10 catalogue)))) =
    wishlist catalogue /\
  inWishlist 7 10 (snd (removeFromWishlist 7 10 (snd (addToWishlist 7 1 10 catalogue)))) = 404.
Proof. exact (wishlist_add_then_remove 7 1 10 catalogue eq_refl). Defined.

End WishlistFacts.

Module AuthFacts.
Import Auth.

(** The header [Bearer <token>] hands exactly [<token>] to the verifier;
    the verified payload becomes [req.user], a rejected token is answered
    401. *)
Theorem bearer_token_round_trip (verify : string -> Result ReqUser) (token : string) :
  authenticateToken verify (Some ("Bearer " +:+ token)) =
    match verify token with
    | Ok payload => Next payload
    | Throw _ => Answer 401 "Token inválido ou expirado."
    end.
Proof.
  assert (Hp : String.prefix "Bearer " ("Bearer " +:+ token) = true)
    by (destruct token; reflexivity).
  assert (Hs : slice 7 ("Bearer " +:+ token) = token) by reflexivity.
  assert (He : String.eqb ("Bearer " +:+ token) "" = false) by reflexivity.
  unfold authenticateToken. rewrite He, Hp, Hs. simpl.
  destruct (verify token) as [[i e r]|]; reflexivity.
Qed.

(** A missing header, or one that does not start with [Bearer ], is
    answered 401 whatever the verifier would say. *)
Theorem malformed_header_never_verified (verify1 verify2 : string -> Result ReqUser)
    (authorization : option string) :
  (forall hdr, authorization = Some hdr -> String.prefix "Bearer " hdr = false) ->
  authenticateToken verify1 authorization =
    Answer 401 "Token de autenticação em falta ou malformado." /\
  authenticateToken verify1 authorization = authenticateToken verify2 authorization.
Proof.
  intros H. unfold authenticateToken. destruct authorization as [hdr|]; [|done].
  rewrite (H hdr eq_refl). by rewrite orb_true_r.
Qed.

Lemma malformed_header_never_verified_witness :
  authenticateToken (fun _ => Ok {| id := 1; email := "root@example.org"; role := "OWNER" |})
                    (Some "Basic dXNlcjpwYXNz") =
    Answer 401 "Token de autenticação em falta ou malformado.".
Proof.
  apply (malformed_header_never_verified
           (fun _ => Ok {| id := 1; email := "root@example.org"; role := "OWNER" |})
           (fun _ => Throw (AppError "jwt malformed")) (Some "Basic dXNlcjpwYXNz")).
  intros hdr H. injection H as <-. reflexivity.
Defined.

(** Whoever passes the owner gate passes the admin gate. *)
Theorem owner_passes_admin_gate (user : option ReqUser) :
  requireOwner user = Next tt -> requireAdmin user = Next tt.
Proof.
  unfold requireOwner, requireAdmin. destruct user as [u|]; [|done].
  destruct (String.eqb (role u) "OWNER"); simpl; [|done].
  by rewrite andb_false_r.
Qed.

Lemma owner_passes_admin_gate_witness :
  requireAdmin (Some {| id := 1; email := "root@example.org"; role := "OWNER" |}) = Next tt.
Proof. apply owner_passes_admin_gate. reflexivity. Defined.

End AuthFacts.
